(** * Telegraph: an asynchronous client for the Telegraph publishing API

    A shallow embedding of [telegraph/types.py] (the dataclasses and the
    recursive serialisation [NodeElement.as_dict]) and of
    [telegraph/api.py] (the [Telegraph] client: [_request] and the nine
    API methods), followed by the properties of the client's request
    contract.

    Python values are embedded as a JSON-like inductive type, Python
    dictionaries with string keys as [gmap string value], the client object
    and the requests it has posted as an explicit world that every method
    threads, and exceptions as the [Raise] outcome of a small state and
    error monad. *)

From Stdlib Require Import ZArith.
From stdpp Require Import base option list strings gmap pretty.

Set Warnings "-register-all,-clear-no-such-hyp".

(** ** Python values *)

(** The values that travel between the client and the wire: [None],
    booleans, integers, strings, lists and string-keyed dictionaries. *)
Inductive value : Type :=
| VNone
| VBool (b : bool)
| VInt (z : Z)
| VStr (s : string)
| VList (l : list value)
| VDict (d : gmap string value).

Abbreviation dict := (gmap string value).

(** Python truthiness, as tested by [if x:] and [not x]. *)
Definition truthy (v : value) : bool :=
  match v with
  | VNone => false
  | VBool b => b
  | VInt z => negb (z =? 0)%Z
  | VStr s => negb (String.eqb s "")
  | VList l => negb (Nat.eqb (length l) 0)
  | VDict d => negb (Nat.eqb (size d) 0)
  end.

(** [x] for an argument annotated [T | None]. *)
Definition opt_str (o : option string) : value := from_option VStr VNone o.
Definition opt_int (o : option Z) : value := from_option VInt VNone o.
Definition opt_bool (o : option bool) : value := from_option VBool VNone o.
Definition opt_strs (o : option (list string)) : value :=
  from_option (λ l, VList (VStr <$> l)) VNone o.

(** ** Exceptions and outcomes *)

Inductive exn : Type :=
| AttributeError (attr : string)
| RuntimeError (msg : string)
| TypeError
| KeyError (key : string)
| ClientResponseError (status : Z) (message : string)
| TransportError (msg : string)
| TelegraphException (msg : string).

Inductive outcome (A : Type) : Type :=
| Return (a : A)
| Raise (e : exn).
Arguments Return {A} a.
Arguments Raise {A} e.

(** [d[k]] on an arbitrary value: only a dictionary that has the key
    answers. *)
Definition getitem (v : value) (k : string) : outcome value :=
  match v with
  | VDict d => match d !! k with
               | Some x => Return x
               | None => Raise (KeyError k)
               end
  | _ => Raise TypeError
  end.

(** Iteration [for x in v].  A dictionary yields its keys; the order in
    which it does is not kept by [gmap], and the one use below fails on the
    first element whichever it is. *)
Definition py_iter (v : value) : outcome (list value) :=
  match v with
  | VList l => Return l
  | VStr s => Return ((λ c, VStr (String c EmptyString)) <$> String.list_ascii_of_string s)
  | VDict d => Return (VStr <$> (map_to_list d).*1)
  | _ => Raise TypeError
  end.

(** ** types.py *)

(** Binding of the keyword arguments [**kwargs] to the fields of a
    dataclass: every field without a default must be given and no other
    name may appear. *)
Definition binds (required optional : list string) (kwargs : dict) : bool :=
  forallb (λ k, bool_decide (is_Some (kwargs !! k))) required
  && forallb (λ k, bool_decide (k ∈ required ++ optional)) (map_to_list kwargs).*1.

(** A field given by keyword, or its default [None]. *)
Definition field (kwargs : dict) (k : string) : value := default VNone (kwargs !! k).

Module Account.
Record t : Type := mk {
  short_name : value;
  author_name : value;
  author_url : value;
  access_token : value;
  auth_url : value;
  page_count : value
}.

Definition required : list string := ["short_name"; "author_name"; "author_url"].
Definition optional : list string := ["access_token"; "auth_url"; "page_count"].

(** The dataclass constructor, called with the entries of [data] as
    keyword arguments. *)
Definition __init__ (data : value) : outcome t :=
  match data with
  | VDict kw =>
      if binds required optional kw
      then Return (mk (field kw "short_name") (field kw "author_name")
                      (field kw "author_url") (field kw "access_token")
                      (field kw "auth_url") (field kw "page_count"))
      else Raise TypeError
  | _ => Raise TypeError
  end.
End Account.

Module Page.
Record t : Type := mk {
  path : value;
  url : value;
  title : value;
  description : value;
  author_name : value;
  author_url : value;
  image_url : value;
  content : value;
  views : value;
  can_edit : value
}.

Definition required : list string := ["path"; "url"; "title"; "description"].
Definition optional : list string :=
  ["author_name"; "author_url"; "image_url"; "content"; "views"; "can_edit"].

(** The dataclass constructor, called with the entries of [data] as
    keyword arguments. *)
Definition __init__ (data : value) : outcome t :=
  match data with
  | VDict kw =>
      if binds required optional kw
      then Return (mk (field kw "path") (field kw "url") (field kw "title")
                      (field kw "description") (field kw "author_name")
                      (field kw "author_url") (field kw "image_url")
                      (field kw "content") (field kw "views") (field kw "can_edit"))
      else Raise TypeError
  | _ => Raise TypeError
  end.
End Page.

Module PageList.
(** Declared by types.py; no function of api.py builds one. *)
Record t : Type := mk {
  total_count : value;
  pages : list Page.t
}.
End PageList.

Module PageViews.
Record t : Type := mk { views : value }.

(** The dataclass constructor, called with the entries of [data] as
    keyword arguments. *)
Definition __init__ (data : value) : outcome t :=
  match data with
  | VDict kw =>
      if binds ["views"] [] kw then Return (mk (field kw "views")) else Raise TypeError
  | _ => Raise TypeError
  end.
End PageViews.

(** A DOM element node.  A child is either a plain text string or another
    element. *)
Inductive NodeElement : Type :=
| mkNodeElement (tag : string) (attrs : option dict) (children : option (list child))
with child : Type :=
| Text (s : string)
| Elem (n : NodeElement).

Definition tag (n : NodeElement) : string := let 'mkNodeElement t _ _ := n in t.
Definition attrs (n : NodeElement) : option dict := let 'mkNodeElement _ a _ := n in a.
Definition children (n : NodeElement) : option (list child) :=
  let 'mkNodeElement _ _ c := n in c.

(** [NodeElement.as_dict] *)
Fixpoint as_dict (self : NodeElement) : dict :=
  match self with
  | mkNodeElement tag attrs children =>
      let result : dict := {[ "tag" := VStr tag ]} in
      let result :=
        match attrs with
        | Some a => if truthy (VDict a) then <["attrs" := VDict a]> result else result
        | None => result
        end in
      let result :=
        match children with
        | Some cs =>
            if negb (Nat.eqb (length cs) 0)
            then <["children" :=
                     VList ((λ c, match c with
                                  | Elem n => VDict (as_dict n)
                                  | Text s => VStr s
                                  end) <$> cs)]> result
            else result
        | None => result
        end in
      result
  end.

(** The wire form of one child. *)
Definition wire_child (c : child) : value :=
  match c with
  | Elem n => VDict (as_dict n)
  | Text s => VStr s
  end.

(** ** api.py: the client object and the world it acts on *)

(** What the attribute [session] of a client can hold once it has been
    assigned: an aiohttp [ClientSession] (open or closed), which is truthy,
    or [None], which a caller can only put there by hand. *)
Inductive session_value : Type :=
| PyNone
| ClientSession (closed : bool).

Definition session_truthy (s : session_value) : bool :=
  match s with
  | PyNone => false
  | ClientSession _ => true
  end.

(** The instance attributes of a [Telegraph] object.  [session] is [None]
    as long as no assignment has created the attribute. *)
Record Telegraph : Type := mkTelegraph {
  base_url : string;
  access_token : value;
  session : option session_value
}.

(** One POST: the URL and the JSON body. *)
Definition request : Type := string * dict.

Record response : Type := mkResponse {
  status : Z;
  text : string;
  json : outcome value
}.

(** The client together with the requests posted so far, oldest first. *)
Record world : Type := mkWorld {
  client : Telegraph;
  wire : list request
}.

(** Computations that read and update the world and may raise. *)
Definition M (A : Type) : Type := world → outcome A * world.

#[global] Instance M_ret : MRet M := λ A a w, (Return a, w).

#[global] Instance M_bind : MBind M := λ A B f m w,
  match m w with
  | (Return a, w') => f a w'
  | (Raise e, w') => (Raise e, w')
  end.

#[global] Instance M_fmap : FMap M := λ A B f m w,
  match m w with
  | (Return a, w') => (Return (f a), w')
  | (Raise e, w') => (Raise e, w')
  end.

Definition raise {A : Type} (e : exn) : M A := λ w, (Raise e, w).

Definition lift {A : Type} (o : outcome A) : M A := λ w, (o, w).

Definition get_client : M Telegraph := λ w, (Return (client w), w).

(** Reading [self.session]: an attribute that was never assigned raises. *)
Definition getattr_session : M session_value := λ w,
  match session (client w) with
  | Some s => (Return s, w)
  | None => (Raise (AttributeError "session"), w)
  end.

Definition set_access_token (v : value) : M unit := λ w,
  (Return (), mkWorld (mkTelegraph (base_url (client w)) v (session (client w))) (wire w)).

Definition set_session (s : session_value) : M unit := λ w,
  (Return (), mkWorld (mkTelegraph (base_url (client w)) (access_token (client w)) (Some s))
                      (wire w)).

(** [Telegraph.__init__]: no [session] attribute is created here. *)
Definition __init__ (access_token : option string) : Telegraph :=
  mkTelegraph "https://api.telegra.ph/" (opt_str access_token) None.

(** [Telegraph.__aenter__] *)
Definition __aenter__ : M unit := set_session (ClientSession false).

(** [Telegraph.__aexit__] *)
Definition __aexit__ : M unit :=
  s ← getattr_session;
  if session_truthy s then set_session (ClientSession true) else mret ().

Definition dquote : string := String (Ascii.ascii_of_nat 34) EmptyString.

Definition session_not_initialized : string :=
  "Session is not initialized. Use " +:+ dquote +:+ "async with Telegraph(...)"
  +:+ dquote +:+ " or pass a session.".

(** Lines 33 to 35 of [_request]: the stored token is written into the
    parameters of every method but [createAccount], when it is truthy. *)
Definition attach_token (method : string) (token : value) (params : dict) : dict :=
  if negb (String.eqb method "createAccount")
  then if truthy token then <["access_token" := token]> params else params
  else params.

(** The value a method returns. *)
Inductive retval : Type :=
| RAccount (a : Account.t)
| RPage (p : Page.t)
| RPages (ps : list Page.t)
| RViews (v : PageViews.t).

(** A call of one of the nine API methods with its arguments; an argument
    annotated [T | None] is an [option]. *)
Inductive call : Type :=
| CreateAccount (short_name author_name author_url : string)
| CreatePage (title : string) (content : list NodeElement)
    (author_name author_url : option string) (return_content : bool)
| EditAccountInfo (short_name author_name author_url : option string)
| EditPage (path title : string) (content : list NodeElement)
    (author_name author_url : option string) (return_content : bool)
| GetAccountInfo (fields : option (list string))
| GetPage (path : string) (return_content : option bool)
| GetPageList (limit offset : option Z)
| GetViews (path : string) (year month day hour : option Z)
| RevokeAccessToken.

(** [mapM] over a list, left to right, stopping at the first exception. *)
Fixpoint traverse {A B : Type} (f : A → outcome B) (l : list A) : outcome (list B) :=
  match l with
  | [] => Return []
  | x :: l' =>
      match f x with
      | Raise e => Raise e
      | Return y =>
          match traverse f l' with
          | Raise e => Raise e
          | Return ys => Return (y :: ys)
          end
      end
  end.

(** The world of a client built by [__init__] that has not entered its
    context, and of one that has. *)
Definition fresh (token : option string) : world := mkWorld (__init__ token) [].

Definition entered (token : option string) : world := (__aenter__ (fresh token)).2.

Section Client.
(** The remote end: what posting a request yields, given the requests
    posted before it.  [Raise] stands for a failure of the transport
    itself (no connection, timeout). *)
Variable server : list request → request → outcome response.

(** Python's [repr] of lists and dictionaries, which this development
    does not spell out. *)
Variable py_repr : value → string.

(** The formatting [{v}] of an f-string. *)
Definition py_str (v : value) : string :=
  match v with
  | VStr s => s
  | VNone => "None"
  | VBool true => "True"
  | VBool false => "False"
  | VInt z => pretty z
  | VList _ | VDict _ => py_repr v
  end.

(** [self.session.post(url, json=params)]: a closed aiohttp session
    refuses before anything is sent. *)
Definition post (s : session_value) (url : string) (params : dict) : M response := λ w,
  match s with
  | PyNone => (Raise (AttributeError "post"), w)
  | ClientSession true => (Raise (RuntimeError "Session is closed"), w)
  | ClientSession false =>
      (server (wire w) (url, params), mkWorld (client w) (wire w ++ [(url, params)]))
  end.

(** [Telegraph._request] *)
Definition _request (method : string) (params : dict) : M value :=
  s ← getattr_session;
  if negb (session_truthy s) then raise (RuntimeError session_not_initialized) else
  self ← get_client;
  let params := attach_token method (access_token self) params in
  resp ← post s (base_url self +:+ "/" +:+ method) params;
  if negb (status resp =? 200)%Z then
    raise (ClientResponseError (status resp)
             ("HTTP " +:+ pretty (status resp) +:+ ": " +:+ text resp))
  else
    data ← lift (json resp);
    ok ← lift (getitem data "ok");
    if negb (truthy ok) then
      error ← lift (getitem data "error");
      raise (TelegraphException ("API Error: " +:+ py_str error))
    else lift (getitem data "result").

(** [Telegraph.create_account] *)
Definition create_account (short_name author_name author_url : string) : M Account.t :=
  let params : dict :=
    <["short_name" := VStr short_name]>
    (<["author_name" := VStr author_name]>
    (<["author_url" := VStr author_url]> ∅)) in
  data ← _request "createAccount" params;
  account ← lift (Account.__init__ data);
  set_access_token (Account.access_token account);;
  mret account.

(** [Telegraph.create_page] *)
Definition create_page (title : string) (content : list NodeElement)
    (author_name author_url : option string) (return_content : bool) : M Page.t :=
  let content := VList ((λ node, VDict (as_dict node)) <$> content) in
  self ← get_client;
  let params : dict :=
    <["access_token" := access_token self]>
    (<["title" := VStr title]>
    (<["content" := content]>
    (<["author_name" := opt_str author_name]>
    (<["author_url" := opt_str author_url]>
    (<["return_content" := VBool return_content]> ∅))))) in
  data ← _request "createPage" params;
  page ← lift (Page.__init__ data);
  mret page.

(** [Telegraph.edit_account_info] *)
Definition edit_account_info (short_name author_name author_url : option string)
    : M Account.t :=
  let params : dict :=
    <["short_name" := opt_str short_name]>
    (<["author_name" := opt_str author_name]>
    (<["author_url" := opt_str author_url]> ∅)) in
  data ← _request "editAccountInfo" params;
  account ← lift (Account.__init__ data);
  set_access_token (Account.access_token account);;
  mret account.

(** [Telegraph.edit_page] *)
Definition edit_page (path title : string) (content : list NodeElement)
    (author_name author_url : option string) (return_content : bool) : M Page.t :=
  let content := VList ((λ node, VDict (as_dict node)) <$> content) in
  let params : dict :=
    <["path" := VStr path]>
    (<["title" := VStr title]>
    (<["content" := content]>
    (<["author_name" := opt_str author_name]>
    (<["author_url" := opt_str author_url]>
    (<["return_content" := VBool return_content]> ∅))))) in
  data ← _request "editPage" params;
  page ← lift (Page.__init__ data);
  mret page.

(** [Telegraph.get_account_info] *)
Definition get_account_info (fields : option (list string)) : M Account.t :=
  let params : dict := <["fields" := opt_strs fields]> ∅ in
  data ← _request "getAccountInfo" params;
  account ← lift (Account.__init__ data);
  mret account.

(** [Telegraph.get_page] *)
Definition get_page (path : string) (return_content : option bool) : M Page.t :=
  let params : dict :=
    <["path" := VStr path]>
    (<["return_content" := opt_bool return_content]> ∅) in
  data ← _request "getPage" params;
  page ← lift (Page.__init__ data);
  mret page.

(** [Telegraph.get_page_list] *)
Definition get_page_list (limit offset : option Z) : M (list Page.t) :=
  let params : dict :=
    <["offset" := opt_int offset]>
    (<["limit" := opt_int limit]> ∅) in
  data ← _request "getPageList" params;
  pages_data ← lift (getitem data "pages");
  items ← lift (py_iter pages_data);
  pages ← lift (traverse Page.__init__ items);
  mret pages.

(** [Telegraph.get_views]: the argument [path] does not occur in the
    body. *)
Definition get_views (path : string) (year month day hour : option Z) : M PageViews.t :=
  let params : dict :=
    <["year" := opt_int year]>
    (<["month" := opt_int month]>
    (<["day" := opt_int day]>
    (<["hour" := opt_int hour]> ∅))) in
  data ← _request "getViews" params;
  views ← lift (PageViews.__init__ data);
  mret views.

(** [Telegraph.revoke_access_token] *)
Definition revoke_access_token : M Account.t :=
  data ← _request "getViews" ∅;
  account ← lift (Account.__init__ data);
  mret account.

(** Dispatch of a call to its method. *)
Definition run (c : call) : M retval :=
  match c with
  | CreateAccount sn an au => RAccount <$> create_account sn an au
  | CreatePage t cont an au rc => RPage <$> create_page t cont an au rc
  | EditAccountInfo sn an au => RAccount <$> edit_account_info sn an au
  | EditPage p t cont an au rc => RPage <$> edit_page p t cont an au rc
  | GetAccountInfo fs => RAccount <$> get_account_info fs
  | GetPage p rc => RPage <$> get_page p rc
  | GetPageList l o => RPages <$> get_page_list l o
  | GetViews p y m d h => RViews <$> get_views p y m d h
  | RevokeAccessToken => RAccount <$> revoke_access_token
  end.

(** The worlds a client can be in when it is driven through its own
    methods only. *)
Inductive reachable : world → Prop :=
| reachable_init (token : option string) : reachable (fresh token)
| reachable_aenter (w : world) : reachable w → reachable (__aenter__ w).2
| reachable_aexit (w : world) : reachable w → reachable (__aexit__ w).2
| reachable_run (c : call) (w : world) : reachable w → reachable (run c w).2.

(** What [_request] makes of a response once it has one: the part of
    its body that follows the [post]. *)
Definition unwrap (resp : response) : outcome value :=
  if negb (status resp =? 200)%Z then
    Raise (ClientResponseError (status resp)
             ("HTTP " +:+ pretty (status resp) +:+ ": " +:+ text resp))
  else
    match json resp with
    | Raise e => Raise e
    | Return data =>
        match getitem data "ok" with
        | Raise e => Raise e
        | Return ok =>
            if negb (truthy ok) then
              match getitem data "error" with
              | Raise e => Raise e
              | Return error => Raise (TelegraphException ("API Error: " +:+ py_str error))
              end
            else getitem data "result"
        end
    end.
End Client.

(** ** Agents used in examples *)

(** A response with status 200 whose body parses to [body]. *)
Definition reply (body : value) : response := mkResponse 200 "" (Return body).

(** A remote end that answers every request with [r]. *)
Definition always (r : response) : list request → request → outcome response :=
  λ _ _, Return r.

(** The envelope of a refused request and of an accepted one. *)
Definition envelope_error (e : string) : value :=
  VDict (<["ok" := VBool false]> (<["error" := VStr e]> ∅)).

Definition envelope_result (r : value) : value :=
  VDict (<["ok" := VBool true]> (<["result" := r]> ∅)).

(** Payloads as the service sends them: an account with its token, a page,
    and a page list with its total count. *)
Definition account_data (token : string) : value :=
  VDict (<["short_name" := VStr "Sandbox"]>
        (<["author_name" := VStr "Anonymous"]>
        (<["author_url" := VStr ""]>
        (<["access_token" := VStr token]>
        (<["auth_url" := VStr "https://edit.telegra.ph/auth/new"]> ∅))))).

Definition page_data (name : string) : value :=
  VDict (<["path" := VStr name]>
        (<["url" := VStr ("https://telegra.ph/" +:+ name)]>
        (<["title" := VStr name]>
        (<["description" := VStr ""]> ∅)))).

Definition page_of (name : string) : Page.t :=
  Page.mk (VStr name) (VStr ("https://telegra.ph/" +:+ name)) (VStr name) (VStr "")
          VNone VNone VNone VNone VNone VNone.

Definition page_list_result (total : Z) : value :=
  VDict (<["total_count" := VInt total]>
        (<["pages" := VList [page_data "Third"; page_data "Second"; page_data "First"]]> ∅)).


Definition views_data : dict := <["views" := VInt 40]> ∅.

Definition broken_page_list : dict :=
  <["total_count" := VInt 2]>
  (<["pages" := VList [page_data "Second"; VDict (<["path" := VStr "First"]> ∅)]]> ∅).

Definition three_pages : dict :=
  <["total_count" := VInt 3]>
  (<["pages" := VList [page_data "Third"; page_data "Second"; page_data "First"]]> ∅).

(** A stand-in for [repr]; the examples never format a container. *)
Definition no_repr : value → string := λ _, "".

(** ** Navigation in a tree and in its wire form *)

(** The child reached from [c] by following child indices [p]. *)
Fixpoint child_at (p : list nat) (c : child) : option child :=
  match p with
  | [] => Some c
  | i :: p' =>
      match c with
      | Text _ => None
      | Elem n => cs ← children n; c' ← cs !! i; child_at p' c'
      end
  end.

(** The same walk in the serialised form, through the [children] key. *)
Fixpoint value_at (p : list nat) (v : value) : option value :=
  match p with
  | [] => Some v
  | i :: p' =>
      match v with
      | VDict d =>
          match d !! "children" with
          | Some (VList vs) => v' ← vs !! i; value_at p' v'
          | _ => None
          end
      | _ => None
      end
  end.

(** ** The request a call builds *)

(** The names of the optional arguments of a call that were left at [None]. *)
Definition unset {A : Type} (k : string) (o : option A) : list string :=
  match o with
  | None => [k]
  | Some _ => []
  end.

Definition unset_optionals (c : call) : list string :=
  match c with
  | CreateAccount _ _ _ => []
  | CreatePage _ _ an au _ => unset "author_name" an ++ unset "author_url" au
  | EditAccountInfo sn an au =>
      unset "short_name" sn ++ unset "author_name" an ++ unset "author_url" au
  | EditPage _ _ _ an au _ => unset "author_name" an ++ unset "author_url" au
  | GetAccountInfo fs => unset "fields" fs
  | GetPage _ rc => unset "return_content" rc
  | GetPageList l o => unset "limit" l ++ unset "offset" o
  | GetViews _ y m d h =>
      unset "year" y ++ unset "month" m ++ unset "day" d ++ unset "hour" h
  | RevokeAccessToken => []
  end.

Definition is_create_account (c : call) : bool :=
  match c with
  | CreateAccount _ _ _ => true
  | _ => false
  end.

(** The calls whose body assigns [self.access_token]. *)
Definition stores_token (c : call) : bool :=
  match c with
  | CreateAccount _ _ _ | EditAccountInfo _ _ _ => true
  | _ => false
  end.

Definition session_open (w : world) : Prop :=
  session (client w) = Some (ClientSession false).

(** The tree of the documentation of [NodeElement]: a paragraph holding a
    text and a bold element. *)
Definition hello_world : NodeElement :=
  mkNodeElement "p" (Some {[ "href" := VStr "https://example.com" ]})
    (Some [Text "Hello, "; Elem (mkNodeElement "b" None (Some [Text "world!"]))]).

(** The wire method a call posts to and the parameters it builds before
    [_request] attaches the token. *)
Definition method_of (c : call) : string :=
  match c with
  | CreateAccount _ _ _ => "createAccount"
  | CreatePage _ _ _ _ _ => "createPage"
  | EditAccountInfo _ _ _ => "editAccountInfo"
  | EditPage _ _ _ _ _ _ => "editPage"
  | GetAccountInfo _ => "getAccountInfo"
  | GetPage _ _ => "getPage"
  | GetPageList _ _ => "getPageList"
  | GetViews _ _ _ _ _ => "getViews"
  | RevokeAccessToken => "getViews"
  end.

Definition params_of (c : call) (self : Telegraph) : dict :=
  match c with
  | CreateAccount sn an au =>
      <["short_name" := VStr sn]>
      (<["author_name" := VStr an]>
      (<["author_url" := VStr au]> ∅))
  | CreatePage t cont an au rc =>
      <["access_token" := access_token self]>
      (<["title" := VStr t]>
      (<["content" := VList ((λ node, VDict (as_dict node)) <$> cont)]>
      (<["author_name" := opt_str an]>
      (<["author_url" := opt_str au]>
      (<["return_content" := VBool rc]> ∅)))))
  | EditAccountInfo sn an au =>
      <["short_name" := opt_str sn]>
      (<["author_name" := opt_str an]>
      (<["author_url" := opt_str au]> ∅))
  | EditPage p t cont an au rc =>
      <["path" := VStr p]>
      (<["title" := VStr t]>
      (<["content" := VList ((λ node, VDict (as_dict node)) <$> cont)]>
      (<["author_name" := opt_str an]>
      (<["author_url" := opt_str au]>
      (<["return_content" := VBool rc]> ∅)))))
  | GetAccountInfo fs => <["fields" := opt_strs fs]> ∅
  | GetPage p rc =>
      <["path" := VStr p]>
      (<["return_content" := opt_bool rc]> ∅)
  | GetPageList l o =>
      <["offset" := opt_int o]>
      (<["limit" := opt_int l]> ∅)
  | GetViews _ y m d h =>
      <["year" := opt_int y]>
      (<["month" := opt_int m]>
      (<["day" := opt_int d]>
      (<["hour" := opt_int h]> ∅)))
  | RevokeAccessToken => ∅
  end.

(** The request a call posts from a client in state [self]. *)
Definition request_of (c : call) (self : Telegraph) : request :=
  (base_url self +:+ "/" +:+ method_of c,
   attach_token (method_of c) (access_token self) (params_of c self)).

(** Computations that leave the posted requests, or the client, as they
    found them. *)
Definition keeps_wire {A : Type} (m : M A) : Prop := ∀ w, wire (m w).2 = wire w.

Definition keeps_client {A : Type} (m : M A) : Prop := ∀ w, client (m w).2 = client w.

Definition keeps_session {A : Type} (m : M A) : Prop :=
  ∀ w, session (client (m w).2) = session (client w).

(** ** Trees up to what serialisation cannot tell apart *)

(** The tree with every falsy attribute map and every empty child list
    replaced by an absent one, at every depth. *)
Fixpoint normalize (n : NodeElement) : NodeElement :=
  match n with
  | mkNodeElement t a cs =>
      mkNodeElement t
        match a with
        | Some m => if truthy (VDict m) then Some m else None
        | None => None
        end
        match cs with
        | Some l =>
            if negb (Nat.eqb (length l) 0)
            then Some ((λ c, match c with
                             | Elem m => Elem (normalize m)
                             | Text s => Text s
                             end) <$> l)
            else None
        | None => None
        end
  end.

Definition normalize_child (c : child) : child :=
  match c with
  | Elem m => Elem (normalize m)
  | Text s => Text s
  end.

(** The keys [as_dict] can write. *)
Definition node_keys : gset string := {[ "tag"; "attrs"; "children" ]}.

(** ** Sequences of calls *)

(** The wire methods of the service that the client has a call for. *)
Definition wire_methods : list string :=
  ["createAccount"; "createPage"; "editAccountInfo"; "editPage";
   "getAccountInfo"; "getPage"; "getPageList"; "getViews"].

(** The world after a sequence of calls, whatever each of them returns or
    raises. *)
Definition run_all (server : list request → request → outcome response)
    (py_repr : value → string) (cs : list call) (w : world) : world :=
  foldl (λ w c, (run server py_repr c w).2) w cs.

Definition is_create_page (c : call) : bool :=
  match c with
  | CreatePage _ _ _ _ _ => true
  | _ => false
  end.

(** * Properties of the document model *)

Lemma as_dict_unfold (t : string) (a : option dict) (cs : option (list child)) :
  as_dict (mkNodeElement t a cs) =
  let result : dict := {[ "tag" := VStr t ]} in
  let result :=
    match a with
    | Some m => if truthy (VDict m) then <["attrs" := VDict m]> result else result
    | None => result
    end in
  match cs with
  | Some l =>
      if negb (Nat.eqb (length l) 0)
      then <["children" := VList (wire_child <$> l)]> result
      else result
  | None => result
  end.
Proof. reflexivity. Qed.

Lemma truthy_dict_empty : truthy (VDict ∅) = false.
Proof. reflexivity. Qed.

Lemma truthy_dict_nonempty (m : dict) : m ≠ ∅ → truthy (VDict m) = true.
Proof.
  intros Hm. unfold truthy.
  destruct (size m) eqn:Hsz; [|done].
  by apply map_size_empty_iff in Hsz.
Qed.

Lemma as_dict_lookup_tag (n : NodeElement) : as_dict n !! "tag" = Some (VStr (tag n)).
Proof.
  destruct n as [t a cs]. rewrite as_dict_unfold. cbv zeta.
  assert (Hattrs : ∀ r : dict, r !! "tag" = Some (VStr t) →
            match a with
            | Some m => if truthy (VDict m) then <["attrs" := VDict m]> r else r
            | None => r
            end !! "tag" = Some (VStr t)).
  { intros r Hr. destruct a as [m|]; [|done].
    destruct (truthy (VDict m)); [|done]. by rewrite lookup_insert_ne. }
  destruct cs as [l|]; [destruct (negb _)|];
    rewrite ?lookup_insert_ne by done; apply Hattrs, lookup_singleton_eq.
Qed.

Lemma as_dict_lookup_attrs (n : NodeElement) :
  as_dict n !! "attrs" =
  match attrs n with
  | Some m => if truthy (VDict m) then Some (VDict m) else None
  | None => None
  end.
Proof.
  destruct n as [t a cs]. rewrite as_dict_unfold. cbv zeta.
  assert (Hattrs :
            match a with
            | Some m => if truthy (VDict m)
                        then <["attrs" := VDict m]> ({[ "tag" := VStr t ]} : dict)
                        else {[ "tag" := VStr t ]}
            | None => {[ "tag" := VStr t ]}
            end !! "attrs" =
            match a with
            | Some m => if truthy (VDict m) then Some (VDict m) else None
            | None => None
            end).
  { destruct a as [m|]; [destruct (truthy (VDict m))|].
    - apply lookup_insert_eq.
    - by rewrite lookup_singleton_ne.
    - by rewrite lookup_singleton_ne. }
  destruct cs as [l|]; [destruct (negb _)|]; by rewrite ?lookup_insert_ne by done.
Qed.

Lemma as_dict_lookup_children (n : NodeElement) :
  as_dict n !! "children" =
  match children n with
  | Some (c :: cs) => Some (VList (wire_child <$> c :: cs))
  | _ => None
  end.
Proof.
  destruct n as [t a cs]. rewrite as_dict_unfold. cbv zeta.
  assert (Hattrs :
            match a with
            | Some m => if truthy (VDict m)
                        then <["attrs" := VDict m]> ({[ "tag" := VStr t ]} : dict)
                        else {[ "tag" := VStr t ]}
            | None => {[ "tag" := VStr t ]}
            end !! "children" = None).
  { destruct a as [m|]; [destruct (truthy (VDict m))|];
      rewrite ?lookup_insert_ne by done; by rewrite lookup_singleton_ne. }
  destruct cs as [[|c l]|]; simpl; [done| |done].
  apply lookup_insert_eq.
Qed.

(** Walking the serialised form is walking the tree and serialising what is
    found there. *)
Lemma value_at_wire_child (p : list nat) (c : child) :
  value_at p (wire_child c) = wire_child <$> child_at p c.
Proof.
  revert c. induction p as [|i p IH]; intros c; [done|].
  destruct c as [s|n]; [done|].
  cbn [wire_child value_at child_at].
  rewrite as_dict_lookup_children.
  destruct (children n) as [[|c l]|]; [done| |done].
  cbn [mbind option_bind].
  rewrite list_lookup_fmap.
  destruct ((c :: l) !! i) as [c'|]; [|done].
  apply IH.
Qed.

(** C4. A node whose attribute map is empty or absent and whose children
    are empty or absent serialises to the dictionary that has the key
    [tag] and nothing else: neither [attrs] nor [children] is present. *)
Theorem as_dict_omits_empty (t : string) (a : option dict) (cs : option (list child)) :
  (a = None ∨ a = Some ∅) →
  (cs = None ∨ cs = Some []) →
  as_dict (mkNodeElement t a cs) = {[ "tag" := VStr t ]}
  ∧ dom (as_dict (mkNodeElement t a cs)) = {[ "tag" ]}
  ∧ as_dict (mkNodeElement t a cs) !! "attrs" = None
  ∧ as_dict (mkNodeElement t a cs) !! "children" = None.
Proof.
  intros Ha Hcs.
  assert (Heq : as_dict (mkNodeElement t a cs) = {[ "tag" := VStr t ]}).
  { rewrite as_dict_unfold.
    destruct Ha as [-> | ->], Hcs as [-> | ->]; reflexivity. }
  rewrite Heq. split_and!; [done|apply dom_singleton_L|done|done].
Qed.

Lemma as_dict_omits_empty_witness :
  as_dict (mkNodeElement "br" (Some ∅) (Some [])) = {[ "tag" := VStr "br" ]}
  ∧ dom (as_dict (mkNodeElement "br" (Some ∅) (Some []))) = {[ "tag" ]}
  ∧ as_dict (mkNodeElement "br" (Some ∅) (Some [])) !! "attrs" = None
  ∧ as_dict (mkNodeElement "br" (Some ∅) (Some [])) !! "children" = None.
Proof.
  apply (as_dict_omits_empty "br" (Some ∅) (Some [])); right; reflexivity.
Defined.

(** C5. Serialisation keeps the tag, the contents of a non-empty
    attribute map and the children in their order, a string child as the
    string itself and a node child as its own serialisation; and it does so
    at every depth: whatever path of child indices is followed, the value
    found in the serialised form is the serialisation of the child found in
    the tree, and there is a value exactly where there is a child. *)
Theorem as_dict_preserves_tree (t : string) (a : option dict) (cs : option (list child)) :
  as_dict (mkNodeElement t a cs) !! "tag" = Some (VStr t)
  ∧ (∀ m, a = Some m → m ≠ ∅ →
       as_dict (mkNodeElement t a cs) !! "attrs" = Some (VDict m))
  ∧ (∀ l, cs = Some l → l ≠ [] →
       as_dict (mkNodeElement t a cs) !! "children" = Some (VList (wire_child <$> l)))
  ∧ (∀ p, value_at p (VDict (as_dict (mkNodeElement t a cs)))
          = wire_child <$> child_at p (Elem (mkNodeElement t a cs))).
Proof.
  split_and!.
  - apply (as_dict_lookup_tag (mkNodeElement t a cs)).
  - intros m -> Hm. rewrite as_dict_lookup_attrs. cbn [attrs].
    by rewrite truthy_dict_nonempty.
  - intros l -> Hl. rewrite as_dict_lookup_children. cbn [children]. by destruct l.
  - intros p. apply (value_at_wire_child p (Elem (mkNodeElement t a cs))).
Qed.

Lemma as_dict_preserves_tree_witness :
  as_dict hello_world !! "tag" = Some (VStr "p")
  ∧ as_dict hello_world !! "attrs" = Some (VDict {[ "href" := VStr "https://example.com" ]})
  ∧ as_dict hello_world !! "children"
    = Some (VList [VStr "Hello, ";
                   VDict (<["children" := VList [VStr "world!"]]> {[ "tag" := VStr "b" ]})])
  ∧ value_at [1%nat; 0%nat] (VDict (as_dict hello_world)) = Some (VStr "world!").
Proof.
  destruct (as_dict_preserves_tree "p" (Some {[ "href" := VStr "https://example.com" ]})
              (Some [Text "Hello, "; Elem (mkNodeElement "b" None (Some [Text "world!"]))]))
    as (Htag & Hattrs & Hchildren & Hpath).
  split_and!.
  - exact Htag.
  - apply Hattrs; [reflexivity|].
    intros Hempty. apply (f_equal (λ m : dict, m !! "href")) in Hempty.
    vm_compute in Hempty. discriminate Hempty.
  - exact (Hchildren _ eq_refl ltac:(discriminate)).
  - apply (Hpath [1%nat; 0%nat]).
Defined.

(** * Properties of the client *)

Lemma bind_run {A B : Type} (f : A → M B) (m : M A) (w : world) :
  (m ≫= f) w =
  match m w with
  | (Return a, w') => f a w'
  | (Raise e, w') => (Raise e, w')
  end.
Proof. reflexivity. Qed.

Lemma fmap_run {A B : Type} (f : A → B) (m : M A) (w : world) :
  (f <$> m) w =
  match m w with
  | (Return a, w') => (Return (f a), w')
  | (Raise e, w') => (Raise e, w')
  end.
Proof. reflexivity. Qed.

Lemma bind_raises {A B : Type} (f : A → M B) (m : M A) (w w' : world) (e : exn) :
  m w = (Raise e, w') → (m ≫= f) w = (Raise e, w').
Proof. intros H. by rewrite bind_run, H. Qed.

Lemma fmap_raises {A B : Type} (f : A → B) (m : M A) (w w' : world) (e : exn) :
  m w = (Raise e, w') → (f <$> m) w = (Raise e, w').
Proof. intros H. by rewrite fmap_run, H. Qed.

Create HintDb world discriminated.

Lemma keeps_wire_ret {A : Type} (a : A) : keeps_wire (mret a).
Proof. by intros w. Qed.

Lemma keeps_wire_lift {A : Type} (o : outcome A) : keeps_wire (lift o).
Proof. by intros w. Qed.

Lemma keeps_wire_set_access_token (v : value) : keeps_wire (set_access_token v).
Proof. by intros w. Qed.

Lemma keeps_wire_bind {A B : Type} (m : M A) (f : A → M B) :
  keeps_wire m → (∀ a, keeps_wire (f a)) → keeps_wire (m ≫= f).
Proof.
  intros Hm Hf w. rewrite bind_run. specialize (Hm w).
  destruct (m w) as [[a|e] w']; simpl in *; [|done].
  by rewrite Hf.
Qed.

Lemma keeps_client_ret {A : Type} (a : A) : keeps_client (mret a).
Proof. by intros w. Qed.

Lemma keeps_client_lift {A : Type} (o : outcome A) : keeps_client (lift o).
Proof. by intros w. Qed.

Lemma keeps_client_bind {A B : Type} (m : M A) (f : A → M B) :
  keeps_client m → (∀ a, keeps_client (f a)) → keeps_client (m ≫= f).
Proof.
  intros Hm Hf w. rewrite bind_run. specialize (Hm w).
  destruct (m w) as [[a|e] w']; simpl in *; [|done].
  by rewrite Hf.
Qed.

Lemma keeps_client_fmap {A B : Type} (m : M A) (f : A → B) :
  keeps_client m → keeps_client (f <$> m).
Proof.
  intros Hm w. rewrite fmap_run. specialize (Hm w).
  by destruct (m w) as [[a|e] w'].
Qed.

Lemma keeps_wire_fmap {A B : Type} (m : M A) (f : A → B) :
  keeps_wire m → keeps_wire (f <$> m).
Proof.
  intros Hm w. rewrite fmap_run. specialize (Hm w).
  by destruct (m w) as [[a|e] w'].
Qed.

Lemma fmap_bind_run {A B C : Type} (f : B → C) (m : M A) (k : A → M B) (w : world) :
  (f <$> (m ≫= k)) w = (m ≫= λ a, f <$> k a) w.
Proof.
  rewrite fmap_run, !bind_run. destruct (m w) as [[a|e] w']; [|done].
  by rewrite fmap_run.
Qed.

Lemma keeps_client_session {A : Type} (m : M A) : keeps_client m → keeps_session m.
Proof. intros Hm w. by rewrite Hm. Qed.

Lemma keeps_session_set_access_token (v : value) : keeps_session (set_access_token v).
Proof. by intros w. Qed.

Lemma keeps_session_bind {A B : Type} (m : M A) (f : A → M B) :
  keeps_session m → (∀ a, keeps_session (f a)) → keeps_session (m ≫= f).
Proof.
  intros Hm Hf w. rewrite bind_run. specialize (Hm w).
  destruct (m w) as [[a|e] w']; simpl in *; [|done].
  by rewrite Hf.
Qed.

Lemma keeps_session_fmap {A B : Type} (m : M A) (f : A → B) :
  keeps_session m → keeps_session (f <$> m).
Proof.
  intros Hm w. rewrite fmap_run. specialize (Hm w).
  by destruct (m w) as [[a|e] w'].
Qed.

Lemma keeps_session_ret {A : Type} (a : A) : keeps_session (mret a).
Proof. by intros w. Qed.

Lemma keeps_session_lift {A : Type} (o : outcome A) : keeps_session (lift o).
Proof. by intros w. Qed.

#[global] Hint Resolve keeps_session_set_access_token keeps_session_bind
  keeps_session_fmap keeps_session_ret keeps_session_lift : world.
#[global] Hint Resolve keeps_wire_fmap : world.
#[global] Hint Resolve keeps_wire_ret keeps_wire_lift keeps_wire_set_access_token
  keeps_wire_bind keeps_client_ret keeps_client_lift keeps_client_bind
  keeps_client_fmap : world.

Section ClientFacts.
Variable server : list request → request → outcome response.
Variable py_repr : value → string.

(** Before the attribute [session] exists, [_request] stops at its first
    line, on the attribute access. *)
Lemma _request_unset (method : string) (params : dict) (w : world) :
  session (client w) = None →
  _request server py_repr method params w = (Raise (AttributeError "session"), w).
Proof.
  intros Hs. unfold _request. rewrite bind_run.
  unfold getattr_session. by rewrite Hs.
Qed.

(** With [None] in the attribute, the guard of [_request] raises the
    error it was written for. *)
Lemma _request_none (method : string) (params : dict) (w : world) :
  session (client w) = Some PyNone →
  _request server py_repr method params w = (Raise (RuntimeError session_not_initialized), w).
Proof.
  intros Hs. unfold _request. rewrite bind_run.
  unfold getattr_session. by rewrite Hs.
Qed.

(** With an open session, [_request] posts one request, the parameters
    with the token attached, and makes its outcome of the response. *)
Lemma _request_open (method : string) (params : dict) (w : world) :
  session_open w →
  _request server py_repr method params w =
  (match server (wire w)
           (base_url (client w) +:+ "/" +:+ method,
            attach_token method (access_token (client w)) params) with
   | Raise e => Raise e
   | Return resp => unwrap py_repr resp
   end,
   mkWorld (client w)
     (wire w ++ [(base_url (client w) +:+ "/" +:+ method,
                  attach_token method (access_token (client w)) params)])).
Proof.
  intros Hs. unfold _request, session_open in *. rewrite bind_run.
  unfold getattr_session. rewrite Hs. cbn [session_truthy negb].
  rewrite bind_run. cbn [get_client]. rewrite bind_run. cbn [post].
  destruct (server _ _) as [resp|e]; [|done].
  unfold unwrap.
  destruct (negb (status resp =? 200)%Z); [done|].
  rewrite bind_run. unfold lift at 1.
  destruct (json resp) as [data|e]; [|done].
  rewrite bind_run. unfold lift at 1.
  destruct (getitem data "ok") as [ok|e]; [|done].
  destruct (negb (truthy ok)); [|done].
  rewrite bind_run. unfold lift at 1.
  by destruct (getitem data "error") as [error|e].
Qed.

Lemma _request_keeps_client (method : string) (params : dict) :
  keeps_client (_request server py_repr method params).
Proof.
  intros w. destruct (session (client w)) as [[|[|]]|] eqn:Hs.
  - by rewrite _request_none.
  - unfold _request. rewrite bind_run.
    unfold getattr_session. rewrite Hs. cbn [session_truthy negb].
    rewrite bind_run. cbn [get_client]. by rewrite bind_run.
  - by rewrite _request_open.
  - by rewrite _request_unset.
Qed.

(** Every method is one [_request] followed by steps that post nothing;
    those steps leave the client alone too, unless the method is one of
    the two that store the token. *)
Lemma run_shape (c : call) :
  ∃ k : value → M retval,
    (∀ v, keeps_wire (k v))
    ∧ (∀ v, keeps_session (k v))
    ∧ (stores_token c = false → ∀ v, keeps_client (k v))
    ∧ ∀ w, run server py_repr c w
           = (_request server py_repr (method_of c) (params_of c (client w)) ≫= k) w.
Proof.
  destruct c; cbn [run stores_token method_of params_of];
    unfold create_account, create_page, edit_account_info, edit_page,
      get_account_info, get_page, get_page_list, get_views, revoke_access_token;
    (eexists; split_and!;
       [| | |intros w;
           first [ rewrite fmap_bind_run; reflexivity
                 | rewrite fmap_bind_run, (bind_run _ get_client); cbn [get_client];
                   rewrite fmap_bind_run; reflexivity ]]);
    try (intros; eauto 10 with world); try discriminate.
Qed.

Lemma run_unset (c : call) (w : world) :
  session (client w) = None →
  run server py_repr c w = (Raise (AttributeError "session"), w).
Proof.
  intros Hs. destruct (run_shape c) as (k & _ & _ & _ & ->).
  by apply bind_raises, _request_unset.
Qed.

(** A call on an open session posts exactly one request. *)
Lemma run_posts (c : call) (w : world) :
  session_open w →
  wire (run server py_repr c w).2 = wire w ++ [request_of c (client w)].
Proof.
  intros Hs. destruct (run_shape c) as (k & Hk & _ & _ & ->).
  rewrite bind_run, _request_open by done.
  match goal with |- context [match ?o with Return _ => _ | Raise _ => _ end] =>
    destruct o as [v|e] end; [|done].
  by rewrite Hk.
Qed.

(** Only the two methods that assign [self.access_token] change the
    client object. *)
Lemma run_keeps_client (c : call) (w : world) :
  stores_token c = false → client (run server py_repr c w).2 = client w.
Proof.
  intros Hc. destruct (run_shape c) as (k & _ & _ & Hk & ->).
  apply keeps_client_bind; [apply _request_keeps_client|by apply Hk].
Qed.

(** No method assigns the attribute [session]. *)
Lemma run_keeps_session (c : call) (w : world) :
  session (client (run server py_repr c w).2) = session (client w).
Proof.
  destruct (run_shape c) as (k & _ & Hk & _ & ->).
  apply keeps_session_bind; [|done].
  apply keeps_client_session, _request_keeps_client.
Qed.

(** A client driven through its own methods never holds [None] in the
    attribute [session]: the attribute is missing or holds a session
    object, so that the guard of [_request] never takes its branch. *)
Lemma reachable_session (w : world) :
  reachable server py_repr w →
  session (client w) = None ∨ ∃ closed, session (client w) = Some (ClientSession closed).
Proof.
  induction 1 as [token|w _ _|w _ IH|c w _ IH].
  - by left.
  - right. by exists false.
  - unfold __aexit__. rewrite bind_run. unfold getattr_session.
    destruct IH as [Hs|[closed Hs]]; rewrite Hs; [by left|].
    right. by exists true.
  - by rewrite run_keeps_session.
Qed.

(** [create_account] and [edit_account_info] store the token of the
    account they return. *)
Lemma run_stores_token (c : call) (w w' : world) (a : Account.t) :
  stores_token c = true →
  run server py_repr c w = (Return (RAccount a), w') →
  access_token (client w') = Account.access_token a.
Proof.
  intros Hc. destruct c; try discriminate Hc; cbn [run];
    unfold create_account, edit_account_info;
    rewrite fmap_run, bind_run;
    (destruct (_request _ _ _ _ _) as [[data|e] w1]; [|done]);
    rewrite bind_run; unfold lift at 1;
    (destruct (Account.__init__ data) as [account|e]; [|done]);
    intros [= <- <-]; reflexivity.
Qed.

(** An envelope whose flag is false makes [unwrap] raise before the key
    [result] is looked at. *)
Lemma unwrap_api_error (resp : response) (d : dict) (ok : value) (e : string) :
  status resp = 200%Z →
  json resp = Return (VDict d) →
  d !! "ok" = Some ok →
  truthy ok = false →
  d !! "error" = Some (VStr e) →
  unwrap py_repr resp = Raise (TelegraphException ("API Error: " +:+ e)).
Proof.
  intros Hst Hjs Hok Hfalse Herr. unfold unwrap.
  rewrite Hst, Hjs. cbn [Z.eqb Pos.eqb negb getitem].
  by rewrite Hok, Hfalse, Herr.
Qed.

Lemma attach_token_lookup_ne (method : string) (token : value) (params : dict)
    (k : string) :
  k ≠ "access_token" → attach_token method token params !! k = params !! k.
Proof.
  intros Hk. unfold attach_token.
  destruct (negb _); [|done]. destruct (truthy token); [|done].
  by rewrite lookup_insert_ne.
Qed.

Lemma attach_token_truthy (method : string) (token : value) (params : dict) :
  String.eqb method "createAccount" = false →
  truthy token = true →
  attach_token method token params !! "access_token" = Some token.
Proof.
  intros Hm Ht. unfold attach_token. rewrite Hm, Ht. apply lookup_insert_eq.
Qed.

Lemma method_of_not_create (c : call) :
  is_create_account c = false → String.eqb (method_of c) "createAccount" = false.
Proof. by destruct c. Qed.

Lemma entered_open (token : option string) : session_open (entered token).
Proof. reflexivity. Qed.

(** C1. [revoke_access_token] is documented to call the wire method
    [revokeAccessToken].  The code departs from it: on a client that has
    entered its context the call posts exactly one request, and that
    request goes to the wire method [getViews]; no request goes to
    [revokeAccessToken]. *)
Theorem revoke_access_token_posts_getViews (token : option string) :
  wire (run server py_repr RevokeAccessToken (entered token)).2
  = [("https://api.telegra.ph//getViews", attach_token "getViews" (opt_str token) ∅)]
  ∧ ∀ params : dict,
      ("https://api.telegra.ph//revokeAccessToken", params)
      ∉ wire (run server py_repr RevokeAccessToken (entered token)).2.
Proof.
  rewrite run_posts by apply entered_open. split; [reflexivity|].
  intros params Hin. apply list_elem_of_singleton in Hin. discriminate Hin.
Qed.

(** C3. [get_views] is documented to take the path of the page whose
    views are asked for.  The code departs from it: the request of
    [get_views] carries no key [path], and the argument [path] has no
    influence on the call at all. *)
Theorem get_views_omits_path (path : string) (year month day hour : option Z)
    (token : option string) :
  (∃ params : dict,
      wire (run server py_repr (GetViews path year month day hour) (entered token)).2
      = [("https://api.telegra.ph//getViews", params)]
      ∧ params !! "path" = None)
  ∧ ∀ path' : string,
      run server py_repr (GetViews path' year month day hour)
      = run server py_repr (GetViews path year month day hour).
Proof.
  split; [|reflexivity].
  rewrite run_posts by apply entered_open.
  eexists. split; [reflexivity|].
  rewrite attach_token_lookup_ne by done.
  cbn [params_of]. by rewrite !lookup_insert_ne by done.
Qed.

(** C9. A method called before the context is entered is to fail with
    the usage error of the guard of [_request].  The code departs from it:
    on a client built by [__init__] every method stops on the read of the
    attribute [session], which does not exist yet; the exception is the
    attribute error of that read and not the error of the guard.  Nothing
    is posted. *)
Theorem operation_before_entering (c : call) (token : option string) :
  run server py_repr c (fresh token) = (Raise (AttributeError "session"), fresh token)
  ∧ (run server py_repr c (fresh token)).1 ≠ Raise (RuntimeError session_not_initialized)
  ∧ wire (run server py_repr c (fresh token)).2 = [].
Proof.
  rewrite run_unset by reflexivity. by split_and!.
Qed.

(** An optional argument left at [None] sits in the parameters the
    method builds, bound to [None], and is not the key of the token. *)
Lemma unset_optionals_lookup (c : call) (self : Telegraph) (k : string) :
  k ∈ unset_optionals c →
  k ≠ "access_token" ∧ params_of c self !! k = Some VNone.
Proof.
  intros Hk.
  destruct c; cbn [unset_optionals unset] in Hk;
    repeat match goal with o : option _ |- _ => destruct o end;
    cbn [unset app] in Hk;
    repeat (apply elem_of_cons in Hk as [-> | Hk]);
    try (by apply elem_of_nil in Hk);
    (split; [done|]); cbn [params_of];
    repeat (rewrite lookup_insert_ne by done); apply lookup_insert_eq.
Qed.

(** C6, amended. On an open session every call posts one request, and
    each optional argument the caller left at [None] is present in the
    parameters of that request, under its own name and bound to the null
    value; it is not left out. *)
Theorem unset_optionals_sent_as_null (c : call) (w : world) :
  session_open w →
  ∃ (url : string) (params : dict),
    wire (run server py_repr c w).2 = wire w ++ [(url, params)]
    ∧ ∀ k, k ∈ unset_optionals c → params !! k = Some VNone.
Proof.
  intros Hs. eexists _, _. split; [by apply run_posts|].
  intros k Hk. destruct (unset_optionals_lookup c (client w) k Hk) as [Hne Hlook].
  by rewrite attach_token_lookup_ne.
Qed.

(** C7, amended. On an open session, when the answer has status 200 and
    an envelope whose flag [ok] is false, every call raises the API
    error whose message is the text [API Error: ] followed by the error
    string of the envelope.  Whatever else the envelope holds plays no
    part, its [result] in particular; no record is returned, the client
    is left as it was and one request has been posted. *)
Theorem api_error_surfaces (c : call) (w : world) (resp : response) (d : dict)
    (ok : value) (e : string) :
  session_open w →
  (∀ req, server (wire w) req = Return resp) →
  status resp = 200%Z →
  json resp = Return (VDict d) →
  d !! "ok" = Some ok →
  truthy ok = false →
  d !! "error" = Some (VStr e) →
  ∃ req : request,
    run server py_repr c w
    = (Raise (TelegraphException ("API Error: " +:+ e)),
       mkWorld (client w) (wire w ++ [req])).
Proof.
  intros Hs Hsrv Hst Hjs Hok Hfalse Herr.
  destruct (run_shape c) as (k & _ & _ & _ & ->).
  eexists. apply bind_raises.
  rewrite _request_open, Hsrv by done.
  by rewrite (unwrap_api_error resp d ok e).
Qed.

(** C8. On an open session every call posts one request.  For every
    method but account creation, a client whose stored token is truthy
    (a token that is neither [None] nor empty) sends that token under
    the key [access_token]; the request of [create_account] has no key
    [access_token], whatever the client holds. *)
Theorem token_attached_except_create_account (c : call) (w : world) :
  session_open w →
  ∃ (url : string) (params : dict),
    wire (run server py_repr c w).2 = wire w ++ [(url, params)]
    ∧ if is_create_account c
      then params !! "access_token" = None
      else truthy (access_token (client w)) = true →
           params !! "access_token" = Some (access_token (client w)).
Proof.
  intros Hs. eexists _, _. split; [by apply run_posts|].
  destruct (is_create_account c) eqn:Hc.
  - destruct c; try discriminate Hc. cbn [method_of params_of].
    unfold attach_token. cbn [String.eqb Ascii.eqb Bool.eqb negb andb].
    by rewrite !lookup_insert_ne by done.
  - intros Ht. by apply attach_token_truthy; [apply method_of_not_create|].
Qed.

Lemma traverse_Forall2 {A B : Type} (f : A → outcome B) (l : list A) (ys : list B) :
  traverse f l = Return ys → Forall2 (λ x y, f x = Return y) l ys.
Proof.
  revert ys. induction l as [|x l IH]; intros ys; cbn [traverse].
  - intros [= <-]. constructor.
  - destruct (f x) as [y|e] eqn:Hfx; [|done].
    destruct (traverse f l) as [ys'|e]; [|done].
    intros [= <-]. constructor; [done|by apply IH].
Qed.

(** [get_page_list] returns the pages in the order of the answer, one
    record per element; of the payload it reads the key [pages] only. *)
Lemma get_page_list_in_order (limit offset : option Z) (w : world) (resp : response)
    (d r : dict) (ok : value) (items : list value) (ps : list Page.t) :
  session_open w →
  (∀ req, server (wire w) req = Return resp) →
  status resp = 200%Z →
  json resp = Return (VDict d) →
  d !! "ok" = Some ok →
  truthy ok = true →
  d !! "result" = Some (VDict r) →
  r !! "pages" = Some (VList items) →
  traverse Page.__init__ items = Return ps →
  (run server py_repr (GetPageList limit offset) w).1 = Return (RPages ps)
  ∧ Forall2 (λ x p, Page.__init__ x = Return p) items ps.
Proof.
  intros Hs Hsrv Hst Hjs Hok Htrue Hres Hpages Htr.
  split; [|by apply traverse_Forall2].
  cbn [run]. unfold get_page_list.
  rewrite fmap_run, bind_run, _request_open, Hsrv by done.
  unfold unwrap. rewrite Hst, Hjs. cbn [Z.eqb Pos.eqb negb getitem].
  rewrite Hok, Htrue, Hres. cbn [negb].
  rewrite bind_run. unfold lift at 1. cbn [getitem]. rewrite Hpages.
  rewrite bind_run. unfold lift at 1. cbn [py_iter].
  rewrite bind_run. unfold lift at 1. by rewrite Htr.
Qed.
End ClientFacts.

(** ** Where the code and its documentation part *)

(** C2. A call that returns an account with a token is to store that
    token in the client.  [revoke_access_token] departs from it: when the
    service answers with an account whose token is [T1], the call returns
    that account and the client still holds [T0].  The same answer to
    [edit_account_info] does replace the stored token. *)
Theorem revoke_access_token_keeps_stored_token :
  (∃ a : Account.t,
      (run (always (reply (envelope_result (account_data "T1")))) no_repr
           RevokeAccessToken (entered (Some "T0"))).1 = Return (RAccount a)
      ∧ Account.access_token a = VStr "T1")
  ∧ access_token (client (run (always (reply (envelope_result (account_data "T1")))) no_repr
                              RevokeAccessToken (entered (Some "T0"))).2) = VStr "T0"
  ∧ access_token (client (run (always (reply (envelope_result (account_data "T1")))) no_repr
                              (EditAccountInfo None None None) (entered (Some "T0"))).2)
    = VStr "T1".
Proof.
  split_and!.
  - eexists. split; vm_compute; reflexivity.
  - vm_compute. reflexivity.
  - vm_compute. reflexivity.
Qed.

(** C10. [get_page_list] is documented to return a [PageList], the pages
    with their total count.  The code departs from it: on an answer that
    lists three pages and a total count, the call returns the three
    records in the order of the answer and nothing else, so that two
    answers that differ in their total count only give the same value. *)
Theorem get_page_list_drops_total_count (total : Z) :
  (run (always (reply (envelope_result (page_list_result total)))) no_repr
       (GetPageList None None) (entered (Some "T0"))).1
  = Return (RPages [page_of "Third"; page_of "Second"; page_of "First"])
  ∧ ∀ total' : Z,
      (run (always (reply (envelope_result (page_list_result total')))) no_repr
           (GetPageList None None) (entered (Some "T0"))).1
      = (run (always (reply (envelope_result (page_list_result total)))) no_repr
             (GetPageList None None) (entered (Some "T0"))).1.
Proof.
  assert (H : ∀ n : Z,
             (run (always (reply (envelope_result (page_list_result n)))) no_repr
                  (GetPageList None None) (entered (Some "T0"))).1
             = Return (RPages [page_of "Third"; page_of "Second"; page_of "First"])).
  { intros n. vm_compute. reflexivity. }
  split; [apply H|]. intros total'. by rewrite !H.
Qed.

(** C6, as stated, fails: [get_page] called without [return_content] posts
    a request whose parameters hold the key [return_content], bound to
    the null value. *)
Lemma get_page_sends_null_return_content :
  wire (run (always (reply (envelope_result (page_data "Sample-Page-12-15")))) no_repr
            (GetPage "Sample-Page-12-15" None) (entered (Some "T0"))).2
  = [("https://api.telegra.ph//getPage",
      <["path" := VStr "Sample-Page-12-15"]>
      (<["return_content" := VNone]>
      (<["access_token" := VStr "T0"]> ∅)))]
  ∧ ¬ ((<["path" := VStr "Sample-Page-12-15"]>
        (<["return_content" := VNone]>
        (<["access_token" := VStr "T0"]> (∅ : dict)))) !! "return_content" = None).
Proof.
  split.
  - vm_compute. reflexivity.
  - vm_compute. discriminate.
Qed.

Lemma unset_optionals_sent_as_null_witness :
  session_open (entered (Some "T0"))
  ∧ ∃ (url : string) (params : dict),
      wire (run (always (reply (envelope_result (page_data "Sample-Page-12-15")))) no_repr
                (GetPage "Sample-Page-12-15" None) (entered (Some "T0"))).2
      = wire (entered (Some "T0")) ++ [(url, params)]
      ∧ ∀ k, k ∈ unset_optionals (GetPage "Sample-Page-12-15" None) →
             params !! k = Some VNone.
Proof.
  split; [reflexivity|].
  apply (unset_optionals_sent_as_null
           (always (reply (envelope_result (page_data "Sample-Page-12-15")))) no_repr
           (GetPage "Sample-Page-12-15" None) (entered (Some "T0"))).
  reflexivity.
Defined.

(** C7, as stated, fails: on the envelope with the error [PAGE_NOT_FOUND]
    the error that [get_page] raises carries the message
    [API Error: PAGE_NOT_FOUND], which is not the string of the envelope. *)
Lemma api_error_message_is_prefixed :
  (run (always (reply (envelope_error "PAGE_NOT_FOUND"))) no_repr
       (GetPage "Sample-Page-12-15" None) (entered (Some "T0"))).1
  = Raise (TelegraphException "API Error: PAGE_NOT_FOUND")
  ∧ (run (always (reply (envelope_error "PAGE_NOT_FOUND"))) no_repr
         (GetPage "Sample-Page-12-15" None) (entered (Some "T0"))).1
    ≠ Raise (TelegraphException "PAGE_NOT_FOUND").
Proof.
  split.
  - vm_compute. reflexivity.
  - vm_compute. discriminate.
Qed.

Lemma api_error_surfaces_witness :
  ∃ req : request,
    run (always (reply (envelope_error "PAGE_NOT_FOUND"))) no_repr
        (GetPage "Sample-Page-12-15" None) (entered (Some "T0"))
    = (Raise (TelegraphException ("API Error: " +:+ "PAGE_NOT_FOUND")),
       mkWorld (client (entered (Some "T0"))) (wire (entered (Some "T0")) ++ [req])).
Proof.
  apply (api_error_surfaces
           (always (reply (envelope_error "PAGE_NOT_FOUND"))) no_repr
           (GetPage "Sample-Page-12-15" None) (entered (Some "T0"))
           (reply (envelope_error "PAGE_NOT_FOUND"))
           (<["ok" := VBool false]> (<["error" := VStr "PAGE_NOT_FOUND"]> ∅))
           (VBool false) "PAGE_NOT_FOUND").
  - reflexivity.
  - intros req. reflexivity.
  - reflexivity.
  - reflexivity.
  - vm_compute. reflexivity.
  - reflexivity.
  - vm_compute. reflexivity.
Defined.

Lemma token_attached_except_create_account_witness :
  session_open (entered (Some "T0"))
  ∧ ∃ (url : string) (params : dict),
      wire (run (always (reply (envelope_result (page_data "Sample-Page-12-15")))) no_repr
                (GetPage "Sample-Page-12-15" None) (entered (Some "T0"))).2
      = wire (entered (Some "T0")) ++ [(url, params)]
      ∧ (truthy (access_token (client (entered (Some "T0")))) = true →
         params !! "access_token" = Some (access_token (client (entered (Some "T0"))))).
Proof.
  split; [reflexivity|].
  apply (token_attached_except_create_account
           (always (reply (envelope_result (page_data "Sample-Page-12-15")))) no_repr
           (GetPage "Sample-Page-12-15" None) (entered (Some "T0"))).
  reflexivity.
Defined.

(** * More on the document model *)

(** Induction on a tree, with the property at hand for every node among
    the children. *)
Lemma NodeElement_nested_ind (P : NodeElement → Prop) :
  (∀ t a cs,
      (∀ l, cs = Some l →
            Forall (λ c, match c with Elem m => P m | Text _ => True end) l) →
      P (mkNodeElement t a cs)) →
  ∀ n, P n.
Proof.
  intros H. fix IH 1. intros [t a cs]. apply H.
  destruct cs as [l|]; [|discriminate].
  intros l' [= <-].
  induction l as [|c l IHl]; constructor; [|exact IHl].
  destruct c as [s|m]; [exact I|apply IH].
Qed.

Lemma normalize_unfold (t : string) (a : option dict) (cs : option (list child)) :
  normalize (mkNodeElement t a cs) =
  mkNodeElement t
    match a with
    | Some m => if truthy (VDict m) then Some m else None
    | None => None
    end
    match cs with
    | Some l =>
        if negb (Nat.eqb (length l) 0) then Some (normalize_child <$> l) else None
    | None => None
    end.
Proof. reflexivity. Qed.

Lemma wire_children_inj (l1 l2 : list child) :
  Forall (λ c, match c with
               | Elem m => ∀ n2, as_dict m = as_dict n2 → normalize m = normalize n2
               | Text _ => True
               end) l1 →
  wire_child <$> l1 = wire_child <$> l2 →
  normalize_child <$> l1 = normalize_child <$> l2.
Proof.
  intros HF. revert l2. induction HF as [|c1 l1 Hc _ IH]; intros [|c2 l2] Heq;
    try discriminate Heq; [done|].
  rewrite !fmap_cons in Heq. injection Heq as Hhead Htail.
  rewrite !fmap_cons. f_equal; [|by apply IH].
  destruct c1 as [s1|m1], c2 as [s2|m2]; try discriminate Hhead.
  - by injection Hhead as ->.
  - injection Hhead as Hm. cbn [normalize_child]. f_equal. by apply Hc.
Qed.

Lemma as_dict_inj_normalize (n1 : NodeElement) :
  ∀ n2, as_dict n1 = as_dict n2 → normalize n1 = normalize n2.
Proof.
  induction n1 as [t a cs IH] using NodeElement_nested_ind.
  intros [t2 a2 cs2] Heq.
  pose proof (f_equal (λ d : dict, d !! "tag") Heq) as Htag.
  pose proof (f_equal (λ d : dict, d !! "attrs") Heq) as Hattrs.
  pose proof (f_equal (λ d : dict, d !! "children") Heq) as Hch.
  cbv beta in Htag, Hattrs, Hch.
  rewrite !as_dict_lookup_tag in Htag.
  rewrite !as_dict_lookup_attrs in Hattrs.
  rewrite !as_dict_lookup_children in Hch.
  cbn [tag attrs children] in Htag, Hattrs, Hch.
  rewrite !normalize_unfold. injection Htag as ->. f_equal.
  - destruct a as [m|], a2 as [m2|]; try destruct (truthy (VDict m));
      try destruct (truthy (VDict m2)); try discriminate Hattrs; try done.
    by injection Hattrs as ->.
  - destruct cs as [[|c l]|], cs2 as [[|c2 l2]|]; try discriminate Hch; try done.
    injection Hch as Hhead Htail. cbn [length Nat.eqb negb]. f_equal.
    apply wire_children_inj; [by apply IH|].
    rewrite !fmap_cons. by f_equal.
Qed.

Lemma as_dict_normalize (n : NodeElement) : as_dict (normalize n) = as_dict n.
Proof.
  induction n as [t a cs IH] using NodeElement_nested_ind.
  rewrite normalize_unfold, !as_dict_unfold. cbv zeta.
  assert (Ha : match match a with
                     | Some m => if truthy (VDict m) then Some m else None
                     | None => None
                     end with
               | Some m => if truthy (VDict m)
                           then <["attrs" := VDict m]> ({[ "tag" := VStr t ]} : dict)
                           else {[ "tag" := VStr t ]}
               | None => {[ "tag" := VStr t ]}
               end
               = match a with
                 | Some m => if truthy (VDict m)
                             then <["attrs" := VDict m]> ({[ "tag" := VStr t ]} : dict)
                             else {[ "tag" := VStr t ]}
                 | None => {[ "tag" := VStr t ]}
                 end).
  { destruct a as [m|]; [|done]. destruct (truthy (VDict m)) eqn:Hm; [|done].
    by rewrite Hm. }
  rewrite Ha. destruct cs as [[|c l]|]; [done| |done].
  cbn [length Nat.eqb negb]. rewrite length_fmap. cbn [length Nat.eqb negb].
  do 2 f_equal. rewrite <- list_fmap_compose.
  apply Forall_fmap_ext. specialize (IH (c :: l) eq_refl).
  eapply Forall_impl; [exact IH|].
  intros [s|m] Hm; [done|]. cbn [compose normalize_child wire_child]. by rewrite Hm.
Qed.

(** Two trees have the same serialised form exactly when they are the
    same tree once every empty attribute map and every empty child list is
    read as an absent one: nothing else is lost by [as_dict]. *)
Theorem as_dict_eq_iff_normalize (n1 n2 : NodeElement) :
  as_dict n1 = as_dict n2 ↔ normalize n1 = normalize n2.
Proof.
  split; [apply as_dict_inj_normalize|].
  intros Hn. rewrite <- (as_dict_normalize n1), <- (as_dict_normalize n2).
  by rewrite Hn.
Qed.

Lemma as_dict_dom (n : NodeElement) : dom (as_dict n) ⊆ node_keys.
Proof.
  destruct n as [t a cs]. rewrite as_dict_unfold. cbv zeta. unfold node_keys.
  destruct a as [m|]; [destruct (truthy (VDict m))|];
    (destruct cs as [l|]; [destruct (negb _)|]);
    rewrite ?dom_insert_L, dom_singleton_L; set_solver.
Qed.

(** The omission rule holds at every depth.  Every dictionary met in the
    serialised form by walking through [children] has a string under
    [tag], no key besides [tag], [attrs] and [children], and, where it has
    [attrs] or [children], a non-empty value under it. *)
Theorem as_dict_well_formed_at_depth (n : NodeElement) (p : list nat) (d : dict) :
  value_at p (VDict (as_dict n)) = Some (VDict d) →
  (∃ t, d !! "tag" = Some (VStr t))
  ∧ dom d ⊆ node_keys
  ∧ (∀ v, d !! "attrs" = Some v → truthy v = true)
  ∧ (∀ v, d !! "children" = Some v → truthy v = true).
Proof.
  change (VDict (as_dict n)) with (wire_child (Elem n)).
  rewrite value_at_wire_child.
  destruct (child_at p (Elem n)) as [[s|m]|]; try discriminate.
  intros [= <-]. split_and!.
  - eexists. apply as_dict_lookup_tag.
  - apply as_dict_dom.
  - intros v. rewrite as_dict_lookup_attrs.
    destruct (attrs m) as [a|]; [|discriminate].
    destruct (truthy (VDict a)) eqn:Ha; [|discriminate]. by intros [= <-].
  - intros v. rewrite as_dict_lookup_children.
    destruct (children m) as [[|c l]|]; try discriminate. by intros [= <-].
Qed.

Lemma as_dict_well_formed_at_depth_witness :
  (∃ t, as_dict (mkNodeElement "b" None (Some [Text "world!"])) !! "tag" = Some (VStr t))
  ∧ dom (as_dict (mkNodeElement "b" None (Some [Text "world!"]))) ⊆ node_keys
  ∧ (∀ v, as_dict (mkNodeElement "b" None (Some [Text "world!"])) !! "attrs" = Some v →
          truthy v = true)
  ∧ (∀ v, as_dict (mkNodeElement "b" None (Some [Text "world!"])) !! "children" = Some v →
          truthy v = true).
Proof.
  apply (as_dict_well_formed_at_depth hello_world [1%nat]).
  vm_compute. reflexivity.
Defined.

(** * More on the client *)

Section ClientMore.
Variable server : list request → request → outcome response.
Variable py_repr : value → string.

(** When the one request of a call on an open session ends in an
    exception, transport or envelope, the call ends in that exception, with
    the client as it was. *)
Lemma run_request_raises (c : call) (w : world) (e : exn) :
  session_open w →
  match server (wire w) (request_of c (client w)) with
  | Raise e' => Raise e'
  | Return resp => unwrap py_repr resp
  end = Raise e →
  run server py_repr c w
  = (Raise e, mkWorld (client w) (wire w ++ [request_of c (client w)])).
Proof.
  intros Hs He. destruct (run_shape server py_repr c) as (k & _ & _ & _ & ->).
  apply bind_raises. rewrite _request_open by done.
  unfold request_of in He. by rewrite He.
Qed.

(** Transport failure comes first.  On an open session, an answer whose
    status is not 200 makes every call raise the response error that holds
    the status and the text of the body; the body is not parsed, whatever
    it is, no record is built and the client is left as it was. *)
Theorem http_error_surfaces (c : call) (w : world) (resp : response) :
  session_open w →
  (∀ req, server (wire w) req = Return resp) →
  status resp ≠ 200%Z →
  ∃ req : request,
    run server py_repr c w
    = (Raise (ClientResponseError (status resp)
                ("HTTP " +:+ pretty (status resp) +:+ ": " +:+ text resp)),
       mkWorld (client w) (wire w ++ [req])).
Proof.
  intros Hs Hsrv Hst. eexists. apply run_request_raises; [done|].
  rewrite Hsrv. unfold unwrap.
  by destruct (Z.eqb_spec (status resp) 200).
Qed.

(** An exception of the transport itself (no connection, timeout) is not
    caught by any method: the call raises it as it is. *)
Theorem transport_failure_propagates (c : call) (w : world) (e : exn) :
  session_open w →
  (∀ req, server (wire w) req = Raise e) →
  ∃ req : request,
    run server py_repr c w = (Raise e, mkWorld (client w) (wire w ++ [req])).
Proof.
  intros Hs Hsrv. eexists. apply run_request_raises; [done|]. by rewrite Hsrv.
Qed.

(** An envelope that lacks the key it is asked for ends every call in a
    key error: [ok] when the flag is missing, [error] when the flag is
    falsy and no error string comes with it, [result] when the flag is
    truthy and no result comes with it. *)
Theorem malformed_envelope_raises_key_error (c : call) (w : world) (resp : response)
    (d : dict) :
  session_open w →
  (∀ req, server (wire w) req = Return resp) →
  status resp = 200%Z →
  json resp = Return (VDict d) →
  (d !! "ok" = None → (run server py_repr c w).1 = Raise (KeyError "ok"))
  ∧ (∀ ok, d !! "ok" = Some ok → truthy ok = false → d !! "error" = None →
       (run server py_repr c w).1 = Raise (KeyError "error"))
  ∧ (∀ ok, d !! "ok" = Some ok → truthy ok = true → d !! "result" = None →
       (run server py_repr c w).1 = Raise (KeyError "result")).
Proof.
  intros Hs Hsrv Hst Hjs.
  assert (Hun : ∀ e, unwrap py_repr resp = Raise e → (run server py_repr c w).1 = Raise e).
  { intros e He. rewrite (run_request_raises c w e); [done|done|]. by rewrite Hsrv. }
  split_and!.
  - intros Hok. apply Hun. unfold unwrap. rewrite Hst, Hjs.
    cbn [Z.eqb Pos.eqb negb getitem]. by rewrite Hok.
  - intros ok Hok Hf Herr. apply Hun. unfold unwrap. rewrite Hst, Hjs.
    cbn [Z.eqb Pos.eqb negb getitem]. by rewrite Hok, Hf, Herr.
  - intros ok Hok Ht Hres. apply Hun. unfold unwrap. rewrite Hst, Hjs.
    cbn [Z.eqb Pos.eqb negb getitem]. by rewrite Hok, Ht, Hres.
Qed.

(** ** Keyword binding *)

Lemma binds_spec (required optional : list string) (kw : dict) :
  binds required optional kw = true
  ↔ (∀ k, k ∈ required → is_Some (kw !! k))
    ∧ (∀ k, is_Some (kw !! k) → k ∈ required ++ optional).
Proof.
  unfold binds. rewrite andb_true_iff, !forallb_forall. split.
  - intros [Hreq Hall]. split.
    + intros k Hk. apply list_elem_of_In, Hreq in Hk.
      by apply bool_decide_eq_true_1 in Hk.
    + intros k [v Hv].
      assert (Hin : In k (map_to_list kw).*1).
      { apply list_elem_of_In, list_elem_of_fmap. exists (k, v). split; [done|].
        by apply elem_of_map_to_list. }
      apply Hall in Hin. by apply bool_decide_eq_true_1 in Hin.
  - intros [Hreq Hall]. split.
    + intros k Hk. apply bool_decide_eq_true_2, Hreq. by apply list_elem_of_In.
    + intros k Hk. apply list_elem_of_In, list_elem_of_fmap in Hk as ([k' v] & -> & Hkv).
      apply elem_of_map_to_list in Hkv. apply bool_decide_eq_true_2, Hall. by exists v.
Qed.

Lemma binds_unexpected (required optional : list string) (kw : dict) (k : string)
    (v : value) :
  kw !! k = Some v → k ∉ required ++ optional → binds required optional kw = false.
Proof.
  intros Hk Hnot. apply not_true_iff_false. intros Hb.
  apply binds_spec in Hb as [_ Hall]. apply Hnot, Hall. by exists v.
Qed.

(** ** The token a request carries *)

Lemma unwrap_result (resp : response) (d : dict) (ok v : value) :
  status resp = 200%Z →
  json resp = Return (VDict d) →
  d !! "ok" = Some ok →
  truthy ok = true →
  d !! "result" = Some v →
  unwrap py_repr resp = Return v.
Proof.
  intros Hst Hjs Hok Ht Hres. unfold unwrap. rewrite Hst, Hjs.
  cbn [Z.eqb Pos.eqb negb getitem]. by rewrite Hok, Ht, Hres.
Qed.

(** The key [access_token] in the request of a client whose stored token
    is falsy: only [create_page] has it, from its own parameters. *)
Lemma request_token_falsy (c : call) (self : Telegraph) :
  truthy (access_token self) = false →
  (request_of c self).2 !! "access_token"
  = if is_create_page c then Some (access_token self) else None.
Proof.
  intros Hf. unfold request_of, attach_token. rewrite Hf. cbn [snd].
  assert (Hparams : params_of c self !! "access_token"
                    = if is_create_page c then Some (access_token self) else None).
  { destruct c; cbn [params_of is_create_page];
      first [ apply lookup_insert_eq
            | by rewrite ?lookup_insert_ne by done ]. }
  by destruct (negb _).
Qed.


(** Without an open session a call fails before anything is sent, and
    leaves the world as it found it. *)
Lemma run_not_open (c : call) (w : world) :
  ¬ session_open w → ∃ e, run server py_repr c w = (Raise e, w).
Proof.
  intros Hs. destruct (run_shape server py_repr c) as (k & _ & _ & _ & ->).
  unfold session_open in Hs.
  destruct (session (client w)) as [[|[|]]|] eqn:Hsess.
  - eexists. by apply bind_raises, _request_none.
  - eexists. apply bind_raises. unfold _request. rewrite bind_run.
    unfold getattr_session. rewrite Hsess. cbn [session_truthy negb].
    rewrite bind_run. cbn [get_client]. by rewrite bind_run.
  - done.
  - eexists. by apply bind_raises, _request_unset.
Qed.

(** Every call posts at most one request and never touches the requests
    posted before.  It posts one exactly when the session is open; when it
    is not, the call raises and nothing at all has changed. *)
Theorem run_posts_at_most_one (c : call) (w : world) :
  (session_open w ∧ wire (run server py_repr c w).2 = wire w ++ [request_of c (client w)])
  ∨ (¬ session_open w ∧ ∃ e, run server py_repr c w = (Raise e, w)).
Proof.
  destruct (session (client w)) as [[|[|]]|] eqn:Hsess;
    first [ left; split; [done|by apply run_posts]
          | right; assert (Hs : ¬ session_open w)
              by (unfold session_open; rewrite Hsess; discriminate);
            split; [done|by apply run_not_open] ].
Qed.

(** A call that raises has not changed the client: the stored token is
    only ever replaced by a call that returns. *)
Theorem failed_call_keeps_client (c : call) (w w' : world) (e : exn) :
  run server py_repr c w = (Raise e, w') → client w' = client w.
Proof.
  destruct (stores_token c) eqn:Hc.
  - pose proof (_request_keeps_client server py_repr (method_of c)
                  (params_of c (client w)) w) as Hreq.
    destruct c; try discriminate Hc; cbn [run method_of params_of] in *;
      unfold create_account, edit_account_info;
      rewrite fmap_run, bind_run;
      (destruct (_request _ _ _ _ _) as [[data|e1] w1]; cbn [snd] in Hreq;
         [|by intros [= _ <-]]);
      rewrite bind_run; unfold lift at 1;
      (destruct (Account.__init__ data) as [account|e2]; [done|]);
      by intros [= _ <-].
  - intros Hrun. rewrite <- (run_keeps_client server py_repr c w Hc). by rewrite Hrun.
Qed.


(** A client whose stored token is falsy ([None] or the empty string)
    sends no key [access_token], except in [create_page], whose own
    parameters name the key and so carry the falsy value itself. *)
Theorem falsy_token_not_attached (c : call) (w : world) :
  session_open w →
  truthy (access_token (client w)) = false →
  ∃ (url : string) (params : dict),
    wire (run server py_repr c w).2 = wire w ++ [(url, params)]
    ∧ params !! "access_token"
      = if is_create_page c then Some (access_token (client w)) else None.
Proof.
  intros Hs Hf. eexists _, _. split; [by apply run_posts|].
  by apply request_token_falsy.
Qed.

(** ** What an answer does to the stored token *)


(** [revoke_access_token] cannot return on an answer of the method it
    posts to: a result that has the key [views], as the results of
    [getViews] do, is refused by the constructor of [Account]. *)
Theorem revoke_access_token_rejects_views_payload (w : world) (resp : response)
    (d r : dict) (ok v : value) :
  session_open w →
  (∀ req, server (wire w) req = Return resp) →
  status resp = 200%Z →
  json resp = Return (VDict d) →
  d !! "ok" = Some ok →
  truthy ok = true →
  d !! "result" = Some (VDict r) →
  r !! "views" = Some v →
  (run server py_repr RevokeAccessToken w).1 = Raise TypeError.
Proof.
  intros Hs Hsrv Hst Hjs Hok Ht Hres Hviews.
  cbn [run]. unfold revoke_access_token.
  rewrite fmap_run, bind_run, _request_open, Hsrv by done.
  rewrite (unwrap_result resp d ok (VDict r)) by done.
  rewrite bind_run. unfold lift at 1. cbn [Account.__init__].
  rewrite (binds_unexpected _ _ r "views" v); [done|done|].
  intros Hin. repeat (apply elem_of_cons in Hin as [Hin|Hin]; [discriminate Hin|]).
  by apply elem_of_nil in Hin.
Qed.

(** ** The page list *)

Lemma traverse_all_return {A B : Type} (f : A → outcome B) (l : list A) :
  (∀ x, x ∈ l → ∃ y, f x = Return y) → ∃ ys, traverse f l = Return ys.
Proof.
  induction l as [|x l IH]; intros Hall; [by eexists|].
  destruct (Hall x) as [y Hy]; [by left|].
  destruct IH as [ys Hys]; [intros x' Hx'; apply Hall; by right|].
  exists (y :: ys). cbn [traverse]. by rewrite Hy, Hys.
Qed.

Lemma traverse_raises {A B : Type} (f : A → outcome B) (l : list A) (e : exn) :
  traverse f l = Raise e → ∃ x, x ∈ l ∧ f x = Raise e.
Proof.
  induction l as [|x l IH]; cbn [traverse]; [done|].
  destruct (f x) as [y|e'] eqn:Hfx.
  - destruct (traverse f l) as [ys|e'']; [done|].
    intros [= ->]. destruct IH as (x' & Hin & Hx'); [done|].
    exists x'. split; [by right|done].
  - intros [= ->]. exists x. split; [by left|done].
Qed.

Lemma Page_init_raises (data : value) (e : exn) :
  Page.__init__ data = Raise e → e = TypeError.
Proof.
  destruct data as [| | | | |kw]; cbn [Page.__init__]; try by intros [= <-].
  destruct (binds _ _ kw); [done|by intros [= <-]].
Qed.

Lemma get_page_list_outcome (limit offset : option Z) (w : world) (resp : response)
    (d r : dict) (ok : value) (items : list value) :
  session_open w →
  (∀ req, server (wire w) req = Return resp) →
  status resp = 200%Z →
  json resp = Return (VDict d) →
  d !! "ok" = Some ok →
  truthy ok = true →
  d !! "result" = Some (VDict r) →
  r !! "pages" = Some (VList items) →
  (run server py_repr (GetPageList limit offset) w).1
  = match traverse Page.__init__ items with
    | Return ps => Return (RPages ps)
    | Raise e => Raise e
    end.
Proof.
  intros Hs Hsrv Hst Hjs Hok Htrue Hres Hpages.
  cbn [run]. unfold get_page_list.
  rewrite fmap_run, bind_run, _request_open, Hsrv by done.
  rewrite (unwrap_result resp d ok (VDict r)) by done.
  rewrite bind_run. unfold lift at 1. cbn [getitem]. rewrite Hpages.
  rewrite bind_run. unfold lift at 1. cbn [py_iter].
  rewrite bind_run. unfold lift at 1.
  by destruct (traverse Page.__init__ items).
Qed.

(** When every element of [pages] is a well-formed page, [get_page_list]
    returns one record per element, in the order of the answer: the list
    has the length of [pages] and its i-th record is built from the i-th
    element. *)
Theorem get_page_list_returns_in_order (limit offset : option Z) (w : world)
    (resp : response) (d r : dict) (ok : value) (items : list value) :
  session_open w →
  (∀ req, server (wire w) req = Return resp) →
  status resp = 200%Z →
  json resp = Return (VDict d) →
  d !! "ok" = Some ok →
  truthy ok = true →
  d !! "result" = Some (VDict r) →
  r !! "pages" = Some (VList items) →
  (∀ item, item ∈ items → ∃ p, Page.__init__ item = Return p) →
  ∃ ps : list Page.t,
    (run server py_repr (GetPageList limit offset) w).1 = Return (RPages ps)
    ∧ length ps = length items
    ∧ ∀ i item, items !! i = Some item →
        ∃ p, ps !! i = Some p ∧ Page.__init__ item = Return p.
Proof.
  intros Hs Hsrv Hst Hjs Hok Htrue Hres Hpages Hall.
  destruct (traverse_all_return Page.__init__ items Hall) as [ps Hps].
  exists ps. rewrite (get_page_list_outcome limit offset w resp d r ok items) by done.
  rewrite Hps. apply traverse_Forall2 in Hps.
  split_and!; [done|symmetry; by eapply Forall2_length|].
  intros i item Hi.
  destruct (Forall2_lookup_l _ _ _ _ _ Hps Hi) as (p & Hp & Hinit). by exists p.
Qed.

(** One malformed page spoils the list: if any element of [pages] is
    refused by the constructor of [Page], [get_page_list] raises the type
    error and returns no page at all. *)
Theorem get_page_list_all_or_nothing (limit offset : option Z) (w : world)
    (resp : response) (d r : dict) (ok : value) (items : list value) (item : value)
    (e : exn) :
  session_open w →
  (∀ req, server (wire w) req = Return resp) →
  status resp = 200%Z →
  json resp = Return (VDict d) →
  d !! "ok" = Some ok →
  truthy ok = true →
  d !! "result" = Some (VDict r) →
  r !! "pages" = Some (VList items) →
  item ∈ items →
  Page.__init__ item = Raise e →
  (run server py_repr (GetPageList limit offset) w).1 = Raise TypeError.
Proof.
  intros Hs Hsrv Hst Hjs Hok Htrue Hres Hpages Hin Hbad.
  rewrite (get_page_list_outcome limit offset w resp d r ok items) by done.
  destruct (traverse Page.__init__ items) as [ps|e'] eqn:Htr.
  - apply traverse_Forall2 in Htr.
    apply list_elem_of_lookup in Hin as [i Hi].
    destruct (Forall2_lookup_l _ _ _ _ _ Htr Hi) as (p & _ & Hp). congruence.
  - apply traverse_raises in Htr as (x & _ & Hx).
    by rewrite (Page_init_raises x e' Hx).
Qed.

(** ** Sequences of calls inside and outside the context *)

Lemma run_client_cases (c : call) (w : world) :
  client (run server py_repr c w).2 = client w
  ∨ ∃ v, client (run server py_repr c w).2
         = mkTelegraph (base_url (client w)) v (session (client w)).
Proof.
  destruct (stores_token c) eqn:Hc; [|left; by apply run_keeps_client].
  pose proof (_request_keeps_client server py_repr (method_of c)
                (params_of c (client w)) w) as Hreq.
  destruct c; try discriminate Hc; cbn [run method_of params_of] in *;
    unfold create_account, edit_account_info;
    rewrite fmap_run, bind_run;
    (destruct (_request _ _ _ _ _) as [[data|e1] w1]; cbn [snd] in Hreq; [|by left]);
    rewrite bind_run; unfold lift at 1;
    (destruct (Account.__init__ data) as [account|e2]; [|by left]);
    right; eexists; rewrite <- Hreq; reflexivity.
Qed.

Lemma run_keeps_base_url (c : call) (w : world) :
  base_url (client (run server py_repr c w).2) = base_url (client w).
Proof. by destruct (run_client_cases c w) as [-> | [v ->]]. Qed.

Lemma run_wire_cases (c : call) (w : world) :
  wire (run server py_repr c w).2 = wire w
  ∨ wire (run server py_repr c w).2 = wire w ++ [request_of c (client w)].
Proof.
  destruct (session (client w)) as [[|[|]]|] eqn:Hsess;
    first [ right; by apply run_posts
          | left; assert (Hs : ¬ session_open w)
              by (unfold session_open; rewrite Hsess; discriminate);
            by destruct (run_not_open c w Hs) as [e ->] ].
Qed.

Lemma method_of_wire_methods (c : call) : method_of c ∈ wire_methods.
Proof. destruct c; cbn [method_of]; unfold wire_methods; set_solver. Qed.

Lemma run_all_snoc (cs : list call) (c : call) (w : world) :
  run_all server py_repr (cs ++ [c]) w
  = (run server py_repr c (run_all server py_repr cs w)).2.
Proof. unfold run_all. by rewrite foldl_app. Qed.

(** The context as a bracket.  After [__aenter__], whatever calls are
    made and however each of them ends, every call has posted exactly one
    request, and [__aexit__] then finds the session it opened and closes
    it, touching nothing else. *)
Theorem exit_after_calls_closes_session (cs : list call) (w : world) :
  let w' := run_all server py_repr cs (__aenter__ w).2 in
  length (wire w') = (length (wire w) + length cs)%nat
  ∧ __aexit__ w'
    = (Return (),
       mkWorld (mkTelegraph (base_url (client w')) (access_token (client w'))
                            (Some (ClientSession true)))
               (wire w')).
Proof.
  cbv zeta.
  assert (Hinv : session_open (run_all server py_repr cs (__aenter__ w).2)
                 ∧ length (wire (run_all server py_repr cs (__aenter__ w).2))
                   = (length (wire w) + length cs)%nat).
  { induction cs as [|c cs IH] using rev_ind.
    - split; [reflexivity|]. cbn. lia.
    - destruct IH as [Hs Hlen]. rewrite run_all_snoc. split.
      + unfold session_open in *. by rewrite run_keeps_session.
      + rewrite run_posts by done. rewrite !length_app, Hlen. cbn. lia. }
  destruct Hinv as [Hs Hlen]. split; [done|].
  unfold __aexit__. rewrite bind_run. unfold getattr_session.
  unfold session_open in Hs. by rewrite Hs.
Qed.

(** Every request a client has posted, through whatever calls since it
    was built, went to the base URL followed by a second slash and one of
    the eight wire methods the client knows; [revokeAccessToken] is not
    among them. *)
Theorem reachable_requests_urls (w : world) (url : string) (params : dict) :
  reachable server py_repr w →
  (url, params) ∈ wire w →
  ∃ m, m ∈ wire_methods ∧ url = "https://api.telegra.ph//" +:+ m.
Proof.
  intros Hreach. revert url params.
  assert (Hinv : base_url (client w) = "https://api.telegra.ph/"
                 ∧ ∀ url params, (url, params) ∈ wire w →
                     ∃ m, m ∈ wire_methods ∧ url = "https://api.telegra.ph//" +:+ m);
    [|by destruct Hinv].
  induction Hreach as [token|w _ IH|w _ IH|c w _ IH].
  - split; [reflexivity|]. intros url params Hin. by apply elem_of_nil in Hin.
  - exact IH.
  - unfold __aexit__. rewrite bind_run. unfold getattr_session.
    by destruct (session (client w)) as [[|[|]]|].
  - destruct IH as [Hbase Hwire]. rewrite run_keeps_base_url. split; [done|].
    intros url params.
    destruct (run_wire_cases c w) as [-> | ->]; [apply Hwire|].
    rewrite elem_of_app, list_elem_of_singleton.
    intros [Hin|Heq]; [by eapply Hwire|].
    unfold request_of in Heq. rewrite Hbase in Heq. injection Heq as -> _.
    exists (method_of c). split; [apply method_of_wire_methods|reflexivity].
Qed.

(** ** The dataclass constructors *)


(** ** The content of a page *)

(** [create_page] and [edit_page] send the content as the list of the
    serialised nodes, one per node and in the order given, next to the
    title: the i-th element of the parameter [content] is [as_dict] of
    the i-th node. *)
Theorem page_content_is_serialised (c : call) (w : world) (title : string)
    (content : list NodeElement) :
  session_open w →
  (∃ an au rc, c = CreatePage title content an au rc)
  ∨ (∃ path an au rc, c = EditPage path title content an au rc) →
  ∃ (url : string) (params : dict) (items : list value),
    wire (run server py_repr c w).2 = wire w ++ [(url, params)]
    ∧ params !! "title" = Some (VStr title)
    ∧ params !! "content" = Some (VList items)
    ∧ length items = length content
    ∧ ∀ i node, content !! i = Some node → items !! i = Some (VDict (as_dict node)).
Proof.
  intros Hs Hc.
  exists (request_of c (client w)).1, (request_of c (client w)).2,
    ((λ node, VDict (as_dict node)) <$> content).
  split; [rewrite run_posts by done; by destruct (request_of c (client w))|].
  assert (Hparams : params_of c (client w) !! "title" = Some (VStr title)
                    ∧ params_of c (client w) !! "content"
                      = Some (VList ((λ node, VDict (as_dict node)) <$> content))).
  { destruct Hc as [(an & au & rc & ->)|(path & an & au & rc & ->)]; cbn [params_of];
      split; repeat (rewrite lookup_insert_ne by done); apply lookup_insert_eq. }
  destruct Hparams as [Htitle Hcontent].
  unfold request_of. cbn [snd]. rewrite !attach_token_lookup_ne by done.
  split_and!; [done|done|by rewrite length_fmap|].
  intros i node Hi. by rewrite list_lookup_fmap, Hi.
Qed.

(** ** Who replaces the stored token *)

(** [create_account] and [edit_account_info], when they return, leave the
    client with the token of the account they return and with nothing
    else changed, whatever that token is; every other call, whether it
    returns or raises, leaves the client exactly as it was. *)
Theorem token_replaced_only_by_account_calls (c : call) (w : world) :
  (stores_token c = true →
   ∀ a w', run server py_repr c w = (Return (RAccount a), w') →
           client w' = mkTelegraph (base_url (client w)) (Account.access_token a)
                                   (session (client w)))
  ∧ (stores_token c = false → client (run server py_repr c w).2 = client w).
Proof.
  split; [|apply run_keeps_client].
  intros Hc a w' Hrun.
  pose proof (run_stores_token server py_repr c w w' a Hc Hrun) as Htok.
  pose proof (run_keeps_base_url c w) as Hbase.
  pose proof (run_keeps_session server py_repr c w) as Hsess.
  rewrite Hrun in Hbase, Hsess. cbn [snd] in Hbase, Hsess.
  destruct (client w') as [b t s]. cbn in Htok, Hbase, Hsess. by subst.
Qed.
End ClientMore.

Lemma http_error_surfaces_witness :
  ∃ req : request,
    run (always (mkResponse 500 "Internal Server Error"
                   (Return (envelope_result (page_data "Sample-Page-12-15"))))) no_repr
        (GetPage "Sample-Page-12-15" None) (entered (Some "T0"))
    = (Raise (ClientResponseError 500 ("HTTP " +:+ pretty 500%Z +:+ ": "
                                       +:+ "Internal Server Error")),
       mkWorld (client (entered (Some "T0"))) (wire (entered (Some "T0")) ++ [req])).
Proof.
  apply (http_error_surfaces
           (always (mkResponse 500 "Internal Server Error"
                      (Return (envelope_result (page_data "Sample-Page-12-15"))))) no_repr
           (GetPage "Sample-Page-12-15" None) (entered (Some "T0"))
           (mkResponse 500 "Internal Server Error"
              (Return (envelope_result (page_data "Sample-Page-12-15"))))).
  - reflexivity.
  - intros req. reflexivity.
  - discriminate.
Defined.

Lemma transport_failure_propagates_witness :
  ∃ req : request,
    run (λ _ _, Raise (TransportError "timeout")) no_repr
        (GetViews "Sample-Page-12-15" None None None None) (entered (Some "T0"))
    = (Raise (TransportError "timeout"),
       mkWorld (client (entered (Some "T0"))) (wire (entered (Some "T0")) ++ [req])).
Proof.
  apply (transport_failure_propagates (λ _ _, Raise (TransportError "timeout")) no_repr
           (GetViews "Sample-Page-12-15" None None None None) (entered (Some "T0"))
           (TransportError "timeout")).
  - reflexivity.
  - intros req. reflexivity.
Defined.

Lemma malformed_envelope_raises_key_error_witness :
  (run (always (reply (VDict ∅))) no_repr
       (GetPage "Sample-Page-12-15" None) (entered (Some "T0"))).1 = Raise (KeyError "ok")
  ∧ (run (always (reply (VDict (<["ok" := VBool false]> ∅)))) no_repr
         (GetPage "Sample-Page-12-15" None) (entered (Some "T0"))).1
    = Raise (KeyError "error")
  ∧ (run (always (reply (VDict (<["ok" := VBool true]> ∅)))) no_repr
         (GetPage "Sample-Page-12-15" None) (entered (Some "T0"))).1
    = Raise (KeyError "result").
Proof.
  split_and!.
  - apply (malformed_envelope_raises_key_error (always (reply (VDict ∅))) no_repr
             (GetPage "Sample-Page-12-15" None) (entered (Some "T0"))
             (reply (VDict ∅)) ∅); reflexivity.
  - apply (malformed_envelope_raises_key_error
             (always (reply (VDict (<["ok" := VBool false]> ∅)))) no_repr
             (GetPage "Sample-Page-12-15" None) (entered (Some "T0"))
             (reply (VDict (<["ok" := VBool false]> ∅))) (<["ok" := VBool false]> ∅))
      with (ok := VBool false); reflexivity.
  - apply (malformed_envelope_raises_key_error
             (always (reply (VDict (<["ok" := VBool true]> ∅)))) no_repr
             (GetPage "Sample-Page-12-15" None) (entered (Some "T0"))
             (reply (VDict (<["ok" := VBool true]> ∅))) (<["ok" := VBool true]> ∅))
      with (ok := VBool true); reflexivity.
Defined.

Lemma failed_call_keeps_client_witness :
  client (run (always (reply (envelope_error "SHORT_NAME_REQUIRED"))) no_repr
              (EditAccountInfo None None None) (entered (Some "T0"))).2
  = client (entered (Some "T0")).
Proof.
  apply (failed_call_keeps_client
           (always (reply (envelope_error "SHORT_NAME_REQUIRED"))) no_repr
           (EditAccountInfo None None None) (entered (Some "T0"))
           (run (always (reply (envelope_error "SHORT_NAME_REQUIRED"))) no_repr
                (EditAccountInfo None None None) (entered (Some "T0"))).2
           (TelegraphException "API Error: SHORT_NAME_REQUIRED")).
  vm_compute. reflexivity.
Defined.


Lemma falsy_token_not_attached_witness :
  ∃ (url : string) (params : dict),
    wire (run (always (reply (envelope_error "ACCESS_TOKEN_INVALID"))) no_repr
              (GetAccountInfo None) (entered None)).2
    = wire (entered None) ++ [(url, params)]
    ∧ params !! "access_token" = None.
Proof.
  apply (falsy_token_not_attached
           (always (reply (envelope_error "ACCESS_TOKEN_INVALID"))) no_repr
           (GetAccountInfo None) (entered None)); reflexivity.
Defined.


Lemma revoke_access_token_rejects_views_payload_witness :
  (run (always (reply (envelope_result (VDict views_data)))) no_repr
       RevokeAccessToken (entered (Some "T0"))).1 = Raise TypeError.
Proof.
  apply (revoke_access_token_rejects_views_payload
           (always (reply (envelope_result (VDict views_data)))) no_repr
           (entered (Some "T0")) (reply (envelope_result (VDict views_data)))
           (<["ok" := VBool true]> (<["result" := VDict views_data]> ∅))
           views_data (VBool true) (VInt 40)).
  - reflexivity.
  - intros req. reflexivity.
  - reflexivity.
  - reflexivity.
  - vm_compute. reflexivity.
  - reflexivity.
  - vm_compute. reflexivity.
  - vm_compute. reflexivity.
Defined.

Lemma get_page_list_returns_in_order_witness :
  ∃ ps : list Page.t,
    (run (always (reply (envelope_result (VDict three_pages)))) no_repr
         (GetPageList (Some 3%Z) None) (entered (Some "T0"))).1 = Return (RPages ps)
    ∧ length ps = length [page_data "Third"; page_data "Second"; page_data "First"]
    ∧ ∀ i item, [page_data "Third"; page_data "Second"; page_data "First"] !! i = Some item →
        ∃ p, ps !! i = Some p ∧ Page.__init__ item = Return p.
Proof.
  apply (get_page_list_returns_in_order
           (always (reply (envelope_result (VDict three_pages)))) no_repr
           (Some 3%Z) None (entered (Some "T0"))
           (reply (envelope_result (VDict three_pages)))
           (<["ok" := VBool true]> (<["result" := VDict three_pages]> ∅))
           three_pages (VBool true)).
  - reflexivity.
  - intros req. reflexivity.
  - reflexivity.
  - reflexivity.
  - vm_compute. reflexivity.
  - reflexivity.
  - vm_compute. reflexivity.
  - vm_compute. reflexivity.
  - intros item Hin.
    repeat (apply elem_of_cons in Hin as [-> | Hin];
            [eexists; vm_compute; reflexivity|]).
    by apply elem_of_nil in Hin.
Defined.

Lemma get_page_list_all_or_nothing_witness :
  (run (always (reply (envelope_result (VDict broken_page_list)))) no_repr
       (GetPageList None None) (entered (Some "T0"))).1 = Raise TypeError.
Proof.
  apply (get_page_list_all_or_nothing
           (always (reply (envelope_result (VDict broken_page_list)))) no_repr
           None None (entered (Some "T0"))
           (reply (envelope_result (VDict broken_page_list)))
           (<["ok" := VBool true]> (<["result" := VDict broken_page_list]> ∅))
           broken_page_list (VBool true)
           [page_data "Second"; VDict (<["path" := VStr "First"]> ∅)]
           (VDict (<["path" := VStr "First"]> ∅)) TypeError).
  - reflexivity.
  - intros req. reflexivity.
  - reflexivity.
  - reflexivity.
  - vm_compute. reflexivity.
  - reflexivity.
  - vm_compute. reflexivity.
  - vm_compute. reflexivity.
  - right. left.
  - vm_compute. reflexivity.
Defined.

Lemma reachable_requests_urls_witness :
  ∃ m, m ∈ wire_methods ∧ "https://api.telegra.ph//getViews" = "https://api.telegra.ph//" +:+ m.
Proof.
  apply (reachable_requests_urls
           (always (reply (envelope_result (VDict views_data)))) no_repr
           (run (always (reply (envelope_result (VDict views_data)))) no_repr
                RevokeAccessToken (entered (Some "T0"))).2
           "https://api.telegra.ph//getViews" (<["access_token" := VStr "T0"]> ∅)).
  - apply reachable_run, reachable_aenter, reachable_init.
  - assert (Hwire : wire (run (always (reply (envelope_result (VDict views_data)))) no_repr
                              RevokeAccessToken (entered (Some "T0"))).2
                    = [("https://api.telegra.ph//getViews",
                        <["access_token" := VStr "T0"]> ∅)])
      by (vm_compute; reflexivity).
    rewrite Hwire. left.
Defined.

Lemma reachable_session_witness :
  session (client (__aexit__ (entered None)).2) = None
  ∨ ∃ closed, session (client (__aexit__ (entered None)).2) = Some (ClientSession closed).
Proof.
  apply (reachable_session (always (reply (VDict ∅))) no_repr (__aexit__ (entered None)).2).
  apply reachable_aexit, reachable_aenter, reachable_init.
Defined.

Lemma page_content_is_serialised_witness :
  ∃ (url : string) (params : dict) (items : list value),
    wire (run (always (reply (envelope_result (page_data "Hello-11-03")))) no_repr
              (CreatePage "Hello" [hello_world] None None false) (entered (Some "T0"))).2
    = wire (entered (Some "T0")) ++ [(url, params)]
    ∧ params !! "title" = Some (VStr "Hello")
    ∧ params !! "content" = Some (VList items)
    ∧ length items = length [hello_world]
    ∧ ∀ i node, [hello_world] !! i = Some node → items !! i = Some (VDict (as_dict node)).
Proof.
  apply (page_content_is_serialised
           (always (reply (envelope_result (page_data "Hello-11-03")))) no_repr
           (CreatePage "Hello" [hello_world] None None false) (entered (Some "T0"))
           "Hello" [hello_world]).
  - reflexivity.
  - left. by exists None, None, false.
Defined.

Lemma token_replaced_only_by_account_calls_witness :
  client (run (always (reply (envelope_result (account_data "T1")))) no_repr
              (CreateAccount "Sandbox" "Anonymous" "") (entered None)).2
  = mkTelegraph (base_url (client (entered None))) (VStr "T1")
                (session (client (entered None)))
  ∧ client (run (always (reply (envelope_result (account_data "T1")))) no_repr
                (GetAccountInfo None) (entered (Some "T0"))).2
    = client (entered (Some "T0")).
Proof.
  split.
  - apply (proj1 (token_replaced_only_by_account_calls
                    (always (reply (envelope_result (account_data "T1")))) no_repr
                    (CreateAccount "Sandbox" "Anonymous" "") (entered None))
                 eq_refl
                 (Account.mk (VStr "Sandbox") (VStr "Anonymous") (VStr "") (VStr "T1")
                             (VStr "https://edit.telegra.ph/auth/new") VNone)).
    vm_compute. reflexivity.
  - apply (proj2 (token_replaced_only_by_account_calls
                    (always (reply (envelope_result (account_data "T1")))) no_repr
                    (GetAccountInfo None) (entered (Some "T0")))).
    reflexivity.
Defined.
